(** * polaris-rbx/verify: rate-limit bucket, cache and verification client

    A shallow embedding of the three modules of the package: the rate-limit
    bucket ([makeRatelimit]), the client that requires it ([setOptions],
    [getRoblox], [getDiscord]) and the error classes ([HttpError],
    [RatelimitError]).

    Conventions of the embedding.
    - JavaScript numbers that measure time (milliseconds returned by
      [Date.now()], periods and retry hints in seconds) are exact rationals
      [Q]; [NaN], the infinities and rounding are outside the model.  The
      request counter and the limit are integers [Z].
    - [Date.now()] is an effect: the [k]-th call made by the process returns
      [Date_now k], and every function threads the number of calls made so
      far.  Nothing is assumed about the readings.
    - The HTTP collaborator is an oracle [fetch]: the [k]-th request made by
      the process is answered by [fetch k req].  Every request is appended to
      a log kept in the client state.
    - An exception is a result [Throw e]; mutations done before the throw
      are kept, as in JavaScript.
    - Each lookup runs to completion before the next one starts (no
      interleaving at the [await] points); console output is not modelled. *)

From stdpp Require Import gmap strings.
From Stdlib Require Import QArith Lqa ZArith Lia.

Open Scope Q_scope.

(** ** JavaScript values *)

Module JS.

(** The values a parsed JSON body is made of, and [undefined].  An array
    is, for this program, an object without any of the properties it
    reads. *)
#[warnings="-register-all"]
Inductive Value : Type :=
| Undefined
| Null
| Bool (b : bool)
| Num (q : Q)
| Str (s : string)
| Obj (props : list (string * Value)).

(** What [if (v)] and [!v] test. *)
Definition truthy (v : Value) : bool :=
  match v with
  | Undefined | Null => false
  | Bool b => b
  | Num q => negb (Qeq_bool q 0)
  | Str s => negb (String.eqb s "")
  | Obj _ => true
  end.

(** [v || w]. *)
Definition or (v w : Value) : Value := if truthy v then v else w.

(** The value of the property [name] among [props], [undefined] when
    there is none. *)
Fixpoint assoc (name : string) (props : list (string * Value)) : Value :=
  match props with
  | [] => Undefined
  | (k, v) :: rest => if String.eqb k name then v else assoc name rest
  end.

(** [v.name]: reading a property of [undefined] or [null] is a
    [TypeError] ([None]); a primitive has none of the properties the
    program reads. *)
Definition prop (v : Value) (name : string) : option Value :=
  match v with
  | Undefined | Null => None
  | Obj props => Some (assoc name props)
  | Bool _ | Num _ | Str _ => Some Undefined
  end.

(** The number a value is coerced to by [v * 1000].  [None] stands for
    [NaN] and for the strings that need numeric parsing. *)
Definition ToNumber (v : Value) : option Q :=
  match v with
  | Undefined => None
  | Null => Some 0
  | Bool b => Some (if b then 1 else 0)
  | Num q => Some q
  | Str s => if String.eqb s "" then Some 0 else None
  | Obj _ => None
  end.

End JS.

(** [a < b] on numbers. *)
Definition Qlt_bool (a b : Q) : bool := negb (Qle_bool b a).

(** ** The error classes *)

(** The message handed to [super]: [error.message] when truthy, else the
    template [`${error.status}: Verification API Error`]. *)
Inductive Message : Type :=
| Given (m : JS.Value)
| FromStatus (status : JS.Value).

Record HttpErrorFields : Type := {
  message : Message;
  status : JS.Value
}.

(** What [fetch] resolves to: [res.status] and the value [res.json()]
    resolves to. *)
Record Response : Type := {
  res_status : Z;
  res_json : JS.Value
}.

(** What can be thrown: a [TypeError] of the language, an [HttpError], a
    [RatelimitError], the [new Error(res)] of [makeRequest], the rejection
    of [fetch] or of [res.json()]; [Unmodelled] marks a run that leaves the
    model (a retry hint that is not a number). *)
Inductive Exn : Type :=
| TypeError
| HttpError (h : HttpErrorFields)
| RatelimitError (h : HttpErrorFields) (retryAfter : JS.Value) (isLocal : JS.Value)
| PlainError (res : Response)
| Rejected
| Unmodelled.

Inductive Result (A : Type) : Type :=
| Ok (a : A)
| Throw (e : Exn).
Arguments Ok {A} a.
Arguments Throw {A} e.

(** [class HttpError]: the constructor reads [error.message] and
    [error.status]. *)
Definition new_HttpErrorFields (error : JS.Value) : option HttpErrorFields :=
  match JS.prop error "message", JS.prop error "status" with
  | Some m, Some s =>
      Some {| message := if JS.truthy m then Given m else FromStatus s;
              status := s |}
  | _, _ => None
  end.

Definition new_HttpError (error : JS.Value) : Exn :=
  match new_HttpErrorFields error with
  | Some h => HttpError h
  | None => TypeError
  end.

(** [class RatelimitError extends HttpError]. *)
Definition new_RatelimitError (error : JS.Value) : Exn :=
  match new_HttpErrorFields error, JS.prop error "retryAfter", JS.prop error "isLocal" with
  | Some h, Some r, Some l => RatelimitError h r (JS.or l (JS.Bool false))
  | _, _, _ => TypeError
  end.

(** ** State, clock and exceptions *)

(** A computation over a state [St]: it receives the state and the number of
    [Date.now()] calls made so far and returns its result with the new
    state and the new number of calls. *)
Definition M (St A : Type) : Type := St -> nat -> Result A * St * nat.

Definition ret {St A} (a : A) : M St A := fun s n => (Ok a, s, n).

Definition throw {St A} (e : Exn) : M St A := fun s n => (Throw e, s, n).

Definition bind {St A B} (m : M St A) (k : A -> M St B) : M St B :=
  fun s n =>
    match m s n with
    | (Ok a, s', n') => k a s' n'
    | (Throw e, s', n') => (Throw e, s', n')
    end.

Definition get {St} : M St St := fun s n => (Ok s, s, n).

Definition modify {St} (f : St -> St) : M St unit := fun s n => (Ok tt, f s, n).

(** Runs a computation on a component of the state. *)
Definition zoom {St T A} (proj : St -> T) (upd : T -> St -> St) (m : M T A) : M St A :=
  fun s n =>
    match m (proj s) n with
    | (r, t', n') => (r, upd t' s, n')
    end.

(** What the evaluation of [opt] yields, [None] being a [TypeError]. *)
Definition lift {St A} (opt : option A) : M St A :=
  match opt with
  | Some a => ret a
  | None => throw TypeError
  end.

(** The computation [m] leaves the component [f] of the state as it is. *)
Definition keeps {St A X} (f : St -> X) (m : M St A) : Prop :=
  forall s n, f (snd (fst (m s n))) = f s.

(** Every run of [m] takes a state to one related to it by [R]. *)
Definition steps {St A} (R : St -> St -> Prop) (m : M St A) : Prop :=
  forall s n, R s (snd (fst (m s n))).

Declare Scope js_scope.
Delimit Scope js_scope with js.
Notation "x <- m ;; k" := (bind m (fun x => k))
  (at level 100, m at next level, right associativity) : js_scope.
Notation "m ;; k" := (bind m (fun _ => k))
  (at level 100, right associativity) : js_scope.

(** ** The rate-limit bucket *)

(** The parameters and the two variables [makeRatelimit] closes over. *)

Record Bucket : Type := {
  limitNo : Z;
  limitPeriod : Q;
  since : Q;
  requestsMade : Z
}.

Definition set_since (t : Q) (b : Bucket) : Bucket :=
  {| limitNo := limitNo b; limitPeriod := limitPeriod b;
     since := t; requestsMade := requestsMade b |}.

Definition set_requestsMade (c : Z) (b : Bucket) : Bucket :=
  {| limitNo := limitNo b; limitPeriod := limitPeriod b;
     since := since b; requestsMade := c |}.

Definition makeRatelimit (limitNo : Z) (limitPeriod : Q) : Bucket :=
  {| limitNo := limitNo; limitPeriod := limitPeriod; since := 0; requestsMade := 0 |}.

(** The window of [b] is still open at the reading [t]: the test of the
    first line of [run]. *)
Definition active (b : Bucket) (t : Q) : Prop :=
  t - since b < limitPeriod b * 1000.

(** The error [run] throws when it builds the error object at reading [t]. *)
Definition RateLimitExceeded (b : Bucket) (t : Q) : Exn :=
  RatelimitError
    {| message := Given (JS.Str "Too many requests"); status := JS.Num 429 |}
    (JS.Num (((since b + (limitPeriod b * 1000)) - t) / 1000 + 5))
    (JS.Bool true).

(** ** The client: state of the module *)

(** The argument of [fetch]: the URL and the [authorization] entry of
    [opt.headers], [None] being [undefined]. *)
Record Request : Type := {
  url : string;
  authorization : option string
}.

Record CacheItem : Type := {
  item : JS.Value;
  expires : Q
}.

(** The argument of [setOptions], typed as its JSDoc says; [None] is a
    property that is absent or [undefined]. *)
Record Options : Type := {
  opt_useLog : option bool;
  opt_token : option string;
  opt_cacheTime : option Q
}.

(** The module-level variables, and the log of the requests made. *)
Record Client : Type := {
  useLog : bool;
  token : option string;
  cacheTime : Q;
  globalRatelimit : Bucket;
  reverseRatelimit : Bucket;
  cache : gmap string CacheItem;
  requests : list Request
}.

Definition set_useLog (v : bool) (c : Client) : Client :=
  {| useLog := v; token := token c; cacheTime := cacheTime c;
     globalRatelimit := globalRatelimit c; reverseRatelimit := reverseRatelimit c;
     cache := cache c; requests := requests c |}.

Definition set_token (v : option string) (c : Client) : Client :=
  {| useLog := useLog c; token := v; cacheTime := cacheTime c;
     globalRatelimit := globalRatelimit c; reverseRatelimit := reverseRatelimit c;
     cache := cache c; requests := requests c |}.

Definition set_cacheTime (v : Q) (c : Client) : Client :=
  {| useLog := useLog c; token := token c; cacheTime := v;
     globalRatelimit := globalRatelimit c; reverseRatelimit := reverseRatelimit c;
     cache := cache c; requests := requests c |}.

Definition set_globalRatelimit (b : Bucket) (c : Client) : Client :=
  {| useLog := useLog c; token := token c; cacheTime := cacheTime c;
     globalRatelimit := b; reverseRatelimit := reverseRatelimit c;
     cache := cache c; requests := requests c |}.

Definition set_reverseRatelimit (b : Bucket) (c : Client) : Client :=
  {| useLog := useLog c; token := token c; cacheTime := cacheTime c;
     globalRatelimit := globalRatelimit c; reverseRatelimit := b;
     cache := cache c; requests := requests c |}.

Definition set_cache (m : gmap string CacheItem) (c : Client) : Client :=
  {| useLog := useLog c; token := token c; cacheTime := cacheTime c;
     globalRatelimit := globalRatelimit c; reverseRatelimit := reverseRatelimit c;
     cache := m; requests := requests c |}.

Definition set_requests (l : list Request) (c : Client) : Client :=
  {| useLog := useLog c; token := token c; cacheTime := cacheTime c;
     globalRatelimit := globalRatelimit c; reverseRatelimit := reverseRatelimit c;
     cache := cache c; requests := l |}.

Definition BASE_URL : string := "https://verify.nezto.re".

(** The state of the module once it is loaded. *)
Definition init : Client :=
  {| useLog := false; token := None; cacheTime := 60;
     globalRatelimit := makeRatelimit 60 60;
     reverseRatelimit := makeRatelimit 30 60;
     cache := ∅; requests := [] |}.

(** [if (x) ...] on the typed options. *)
Definition truthy_string (s : option string) : bool :=
  match s with
  | Some s => negb (String.eqb s "")
  | None => false
  end.

Definition truthy_number (q : option Q) : bool :=
  match q with
  | Some q => negb (Qeq_bool q 0)
  | None => false
  end.

Definition setOptions (opt : Options) (c : Client) : Client :=
  let c1 := if default false (opt_useLog opt)
            then set_useLog (default false (opt_useLog opt) || false) c else c in
  let c2 := if truthy_string (opt_token opt) then set_token (opt_token opt) c1 else c1 in
  if truthy_number (opt_cacheTime opt)
  then set_cacheTime (default 0 (opt_cacheTime opt)) c2 else c2.

(** [res.ok], as node-fetch defines it. *)
Definition res_ok (res : Response) : bool :=
  ((200 <=? res_status res) && (res_status res <? 300))%Z.

(** The request [makeRequest uri] hands to [fetch] in state [c]. *)
Definition request_of (uri : string) (c : Client) : Request :=
  {| url := BASE_URL +:+ uri; authorization := token c |}.



(** The state once [makeRequest uri] has been accepted by the global bucket,
    which became [gb], and has sent its request. *)
Definition sent (uri : string) (gb : Bucket) (c : Client) : Client :=
  set_requests (requests c ++ [request_of uri c]) (set_globalRatelimit gb c).

(** The calls a user of the module can make. *)
Inductive Call : Type :=
| CallSetOptions (opt : Options)
| CallGetRoblox (discordId : string)
| CallGetDiscord (robloxId : string).

(** The cache key a lookup uses. *)
Definition cacheKey (op : Call) : option string :=
  match op with
  | CallSetOptions _ => None
  | CallGetRoblox discordId => Some ("d-" +:+ discordId)
  | CallGetDiscord robloxId => Some ("r-" +:+ robloxId)
  end.

(** The errors [run] throws: a [RatelimitError] marked as local. *)
Definition is_local_ratelimit (e : Exn) : bool :=
  match e with
  | RatelimitError _ _ (JS.Bool true) => true
  | _ => false
  end.

Definition failed_locally {A} (r : Result A) : bool :=
  match r with
  | Throw e => is_local_ratelimit e
  | Ok _ => false
  end.


(** ** Invariants *)

(** The counter of [b] lies between 0 and the limit. *)
Definition within_limit (b : Bucket) : Prop :=
  (0 <= requestsMade b <= limitNo b)%Z.

(** [b'] has the parameters of [b], and a counter within the limit. *)
Definition same_policy (b b' : Bucket) : Prop :=
  limitNo b' = limitNo b /\ limitPeriod b' = limitPeriod b /\ within_limit b'.

(** What holds of the module in every state it reaches: the two buckets
    keep the policy they were created with and a counter within the limit,
    the time to live is not 0 and the token is not the empty string. *)
Definition well_formed (c : Client) : Prop :=
  same_policy (makeRatelimit 60 60) (globalRatelimit c) /\
  same_policy (makeRatelimit 30 60) (reverseRatelimit c) /\
  ~ cacheTime c == 0 /\
  token c <> Some ""%string.

(** [c'] has every cache key of [c], and its log of requests continues the
    one of [c]. *)
Definition grown (c c' : Client) : Prop :=
  dom (cache c) ⊆ dom (cache c') /\ requests c `prefix_of` requests c'.

(** The calls a user of a bucket can make. *)
Inductive BucketCall : Type :=
| CallRun
| CallTrigger (retryAfter : Q).

(** ** Scenarios *)

(** A clock that always reads [t]. *)
Definition steady (t : Q) : nat -> Q := fun _ => t.

(** A clock whose successive readings are those of [l], then [last]. *)
Definition readings (l : list Q) (last : Q) : nat -> Q := fun k => nth k l last.

(** A remote service that gives the same answer to every request. *)
Definition answers (res : Response) : nat -> Request -> option Response :=
  fun _ _ => Some res.

(** An answer of status [st] whose body is [{error: {status: st, ...fields}}]. *)
Definition remote_error (st : Z) (fields : list (string * JS.Value)) : Response :=
  {| res_status := st;
     res_json := JS.Obj [("error", JS.Obj (("status", JS.Num (inject_Z st)) :: fields))] |}.

(** A bucket of 60 calls per 60 seconds, full, whose window opened at
    [t]. *)
Definition full_bucket (t : Q) : Bucket :=
  {| limitNo := 60; limitPeriod := 60; since := t; requestsMade := 60 |}.

(** The clock of a run in which [trigger 10] is called at 100 s and [run] is
    called at 100 s, at 169.999 s and at 170 s. *)
Definition trigger_clock : nat -> Q :=
  readings [100000; 100000; 100000; 169999; 169999] 170000.

(** The clock of a run that reads it at 100 s twice, at 159.999 s and then
    at 160 s. *)
Definition cache_clock : nat -> Q :=
  readings [100000; 100000; 159999] 160000.

(** The module when the global bucket is full, its window opened at 100 s,
    and the reverse bucket is untouched. *)
Definition busy : Client := set_globalRatelimit (full_bucket 100000) init.

(** A cache that holds [undefined], until 200 s, under the keys of the
    forward and of the reverse lookup of the id 1. *)
Definition nothing_cached : Client :=
  set_cache (<["r-1" := {| item := JS.Undefined; expires := 200000 |}]>
             (<["d-1" := {| item := JS.Undefined; expires := 200000 |}]> ∅)) init.

(** A cache that holds 7, until 200 s, under the key of the forward lookup
    of the id 7. *)
Definition seven_cached : Client :=
  set_cache (<["d-7" := {| item := JS.Num 7; expires := 200000 |}]> ∅) init.

(** The clock reads 100 s thirteen times, then 165 s. *)
Definition cooldown_clock : nat -> Q := readings (repeat 100000 13%nat) 165000.

(** The clock reads 100 s three times, 130 s once, then 160 s. *)
Definition lookup_clock : nat -> Q := readings [100000; 100000; 100000; 130000] 160000.

(** The clock reads 100 s three times, then 161 s. *)
Definition minute_clock : nat -> Q := readings (repeat 100000 3%nat) 161000.

(** The clock reads 31 s twice, then 61 s. *)
Definition retry_clock : nat -> Q := readings [31000; 31000] 61000.

(** The clock reads 159.999 s three times, then 160 s. *)
Definition burst_clock : nat -> Q := readings [159999; 159999; 159999] 160000.

(** A bucket of 3 calls per 60 s whose window opened at 100 s and has not
    counted a call yet. *)
Definition open_bucket : Bucket :=
  {| limitNo := 3; limitPeriod := 60; since := 100000; requestsMade := 0 |}.

(** A cache that holds 7, until 200 s, under both keys of the id 7. *)
Definition both_cached : Client :=
  set_cache (<["r-7" := {| item := JS.Num 7; expires := 200000 |}]>
             (<["d-7" := {| item := JS.Num 7; expires := 200000 |}]> ∅)) init.

(** A successful answer that gives both identifiers. *)
Definition found : Response :=
  {| res_status := 200;
     res_json := JS.Obj [("robloxId", JS.Num 42); ("discordId", JS.Str "99")] |}.

(** The module with logging on and a token. *)
Definition configured : Client := set_useLog true (set_token (Some "secret"%string) init).

Section Process.

(** The reading returned by the [k]-th call of [Date.now()]. *)
Variable Date_now : nat -> Q.

(** The answer to the [k]-th request: the response with its parsed JSON
    body, or [None] when [fetch] or [res.json()] rejects. *)
Variable fetch : nat -> Request -> option Response.

Definition now {St} : M St Q := fun s n => (Ok (Date_now n), s, S n).

(** The object literal thrown by [run]. *)
Definition local_error (retryAfter : Q) : JS.Value :=
  JS.Obj [("status", JS.Num 429); ("message", JS.Str "Too many requests");
          ("retryAfter", JS.Num retryAfter); ("isLocal", JS.Bool true)].

Definition run : M Bucket unit :=
  (t <- now ;;
   b <- get ;;
   (if Qlt_bool (t - since b) (limitPeriod b * 1000) then
      if (requestsMade b >=? limitNo b)%Z then
        t' <- now ;;
        let retryAfter := ((since b + (limitPeriod b * 1000)) - t') / 1000 + 5 in
        throw (new_RatelimitError (local_error retryAfter))
      else ret tt
    else
      modify (set_requestsMade 0) ;;
      t' <- now ;;
      modify (set_since t')) ;;
   modify (fun b => set_requestsMade (requestsMade b + 1) b))%js.

Definition trigger (retryAfter : Q) : M Bucket unit :=
  (modify (fun b => set_requestsMade (limitNo b) b) ;;
   t <- now ;;
   modify (set_since (t + retryAfter * 1000)))%js.

(** *** The client: cache *)

Definition getCache (id : string) : M Client JS.Value :=
  (c <- get ;;
   match cache c !! id with
   | Some cacheItem =>
       t <- now ;;
       if Qlt_bool t (expires cacheItem) then ret (item cacheItem)
       else ret JS.Undefined
   | None => ret JS.Undefined
   end)%js.

Definition setCache (id : string) (v : JS.Value) : M Client unit :=
  (t <- now ;;
   modify (fun c =>
     set_cache (<[id := {| item := v; expires := t + (cacheTime c * 1000) |}]> (cache c)) c))%js.

(** *** The client: requests *)

Definition on_global {A} (m : M Bucket A) : M Client A :=
  zoom globalRatelimit set_globalRatelimit m.

Definition on_reverse {A} (m : M Bucket A) : M Client A :=
  zoom reverseRatelimit set_reverseRatelimit m.

(** [await fetch(url, opt)] followed by [await res.json()]. *)
Definition do_fetch (req : Request) : M Client Response :=
  (c <- get ;;
   modify (set_requests (requests c ++ [req])) ;;
   match fetch (length (requests c)) req with
   | Some res => ret res
   | None => throw Rejected
   end)%js.

Definition makeRequest (uri : string) : M Client JS.Value :=
  (on_global run ;;
   c <- get ;;
   let opt := {| url := BASE_URL +:+ uri; authorization := token c |} in
   res <- do_fetch opt ;;
   let json := res_json res in
   if res_ok res then ret json
   else if (res_status res =? 429)%Z then
     error <- lift (JS.prop json "error") ;;
     hint <- lift (JS.prop error "retryAfter") ;;
     match JS.ToNumber (JS.or hint (JS.Num 3000)) with
     | Some retryAfter =>
         on_global (trigger retryAfter) ;;
         throw (new_RatelimitError error)
     | None => throw Unmodelled
     end
   else if (res_status res =? 404)%Z then ret JS.Undefined
   else
     error <- lift (JS.prop json "error") ;;
     if JS.truthy error then throw (new_HttpError error)
     else throw (PlainError res))%js.

(** The part of [getRoblox] after the cache guard. *)
Definition getRoblox_request (discordId cacheKey : string) : M Client JS.Value :=
  (full <- makeRequest ("/api/roblox/" +:+ discordId) ;;
   if negb (JS.truthy full) then ret JS.Undefined
   else
     r <- (if JS.truthy full then lift (JS.prop full "robloxId") else ret full) ;;
     setCache cacheKey r ;;
     ret r)%js.

Definition getRoblox (discordId : string) : M Client JS.Value :=
  (let cacheKey := "d-" +:+ discordId in
   cachedItem <- getCache cacheKey ;;
   if JS.truthy cachedItem then ret cachedItem
   else getRoblox_request discordId cacheKey)%js.

(** The part of [getDiscord] after the cache guard. *)
Definition getDiscord_request (robloxId cacheKey : string) : M Client JS.Value :=
  (on_reverse run ;;
   full <- makeRequest ("/api/reverse/" +:+ robloxId) ;;
   if negb (JS.truthy full) then ret JS.Undefined
   else
     r <- (if JS.truthy full then lift (JS.prop full "discordId") else ret full) ;;
     setCache cacheKey r ;;
     ret r)%js.

Definition getDiscord (robloxId : string) : M Client JS.Value :=
  (let cacheKey := "r-" +:+ robloxId in
   cachedItem <- getCache cacheKey ;;
   if JS.truthy cachedItem then ret cachedItem
   else getDiscord_request robloxId cacheKey)%js.

(** *** Callers *)

(** [try { m } catch (e) { }]: the outcome of [m] as a value. *)
Definition attempt {St A} (m : M St A) : M St (Result A) :=
  fun s n =>
    match m s n with
    | (r, s', n') => (Ok r, s', n')
    end.

(** A caller that calls [run()] [k] times in a row and records, for each
    call, its outcome and the counter after it. *)
Fixpoint attempts (k : nat) : M Bucket (list (Result unit * Z)) :=
  match k with
  | O => ret []
  | S k' =>
      (r <- attempt run ;;
       b <- get ;;
       rest <- attempts k' ;;
       ret ((r, requestsMade b) :: rest))%js
  end.

Definition call (op : Call) : M Client (Result JS.Value) :=
  match op with
  | CallSetOptions opt => (modify (setOptions opt) ;; ret (Ok JS.Undefined))%js
  | CallGetRoblox discordId => attempt (getRoblox discordId)
  | CallGetDiscord robloxId => attempt (getDiscord robloxId)
  end.

(** A caller that makes the calls of [ops] one after the other and
    records their outcomes. *)
Fixpoint calls (ops : list Call) : M Client (list (Result JS.Value)) :=
  match ops with
  | [] => ret []
  | op :: rest =>
      (r <- call op ;;
       rs <- calls rest ;;
       ret (r :: rs))%js
  end.

(** [getCache id] read at the [m]-th clock reading would not return a
    truthy value: no entry, an expired entry, or a falsy item. *)
Definition misses (c : Client) (id : string) (m : nat) : bool :=
  match cache c !! id with
  | Some cacheItem => negb (Qlt_bool (Date_now m) (expires cacheItem) && JS.truthy (item cacheItem))
  | None => true
  end.

Definition bucket_call (op : BucketCall) : M Bucket (Result unit) :=
  match op with
  | CallRun => attempt run
  | CallTrigger retryAfter => attempt (trigger retryAfter)
  end.

(** A caller that makes the bucket calls of [ops] one after the other and
    records their outcomes. *)
Fixpoint bucket_calls (ops : list BucketCall) : M Bucket (list (Result unit)) :=
  match ops with
  | [] => ret []
  | op :: rest =>
      (r <- bucket_call op ;;
       rs <- bucket_calls rest ;;
       ret (r :: rs))%js
  end.

(** ** Properties of the bucket *)

Lemma Qlt_bool_true (a b : Q) : Qlt_bool a b = true <-> a < b.
Proof.
  unfold Qlt_bool. rewrite negb_true_iff, <- not_true_iff_false, Qle_bool_iff.
  split; [apply Qnot_le_lt | apply Qlt_not_le].
Qed.

Lemma Qlt_bool_false (a b : Q) : Qlt_bool a b = false <-> b <= a.
Proof.
  unfold Qlt_bool. rewrite negb_false_iff. apply Qle_bool_iff.
Qed.

Lemma run_expired (b : Bucket) (n : nat) :
  ~ active b (Date_now n) ->
  run b n = (Ok tt, set_requestsMade 1 (set_since (Date_now (S n)) b), S (S n)).
Proof.
  intros Hexp. unfold run, bind, now, get, modify, ret. simpl.
  assert (Qlt_bool (Date_now n - since b) (limitPeriod b * 1000) = false) as ->.
  { apply Qlt_bool_false. apply Qnot_lt_le. exact Hexp. }
  reflexivity.
Qed.

Lemma run_accepted (b : Bucket) (n : nat) :
  active b (Date_now n) ->
  (requestsMade b < limitNo b)%Z ->
  run b n = (Ok tt, set_requestsMade (requestsMade b + 1) b, S n).
Proof.
  intros Hact Hlt. unfold run, bind, now, get, modify, ret. simpl.
  assert (Qlt_bool (Date_now n - since b) (limitPeriod b * 1000) = true) as ->.
  { apply Qlt_bool_true. exact Hact. }
  assert ((requestsMade b >=? limitNo b)%Z = false) as -> by lia.
  reflexivity.
Qed.

Lemma run_rejected (b : Bucket) (n : nat) :
  active b (Date_now n) ->
  (limitNo b <= requestsMade b)%Z ->
  run b n = (Throw (RateLimitExceeded b (Date_now (S n))), b, S (S n)).
Proof.
  intros Hact Hge. unfold run, bind, now, get, modify, ret, throw. simpl.
  assert (Qlt_bool (Date_now n - since b) (limitPeriod b * 1000) = true) as ->.
  { apply Qlt_bool_true. exact Hact. }
  assert ((requestsMade b >=? limitNo b)%Z = true) as -> by lia.
  reflexivity.
Qed.

(** The three ways a call of [run] goes. *)
Lemma run_cases (b : Bucket) (n : nat) :
  (~ active b (Date_now n) /\
   run b n = (Ok tt, set_requestsMade 1 (set_since (Date_now (S n)) b), S (S n))) \/
  (active b (Date_now n) /\ (requestsMade b < limitNo b)%Z /\
   run b n = (Ok tt, set_requestsMade (requestsMade b + 1) b, S n)) \/
  (active b (Date_now n) /\ (limitNo b <= requestsMade b)%Z /\
   run b n = (Throw (RateLimitExceeded b (Date_now (S n))), b, S (S n))).
Proof.
  destruct (Qlt_le_dec (Date_now n - since b) (limitPeriod b * 1000)) as [Hact|Hexp].
  - destruct (Z_lt_ge_dec (requestsMade b) (limitNo b)) as [Hlt|Hge].
    + right; left. auto using run_accepted.
    + right; right. split; [assumption|]. split; [lia|]. apply run_rejected; [assumption|lia].
  - left. apply Qle_not_lt in Hexp. auto using run_expired.
Qed.

Lemma set_requestsMade_same (b : Bucket) (c : Z) :
  c = requestsMade b -> set_requestsMade c b = b.
Proof. intros ->. destruct b; reflexivity. Qed.

(** [attempts] never throws, and splits along a sum. *)
Lemma attempts_app (j k : nat) (b : Bucket) (n : nat) :
  attempts (j + k) b n =
  match attempts j b n with
  | (Ok l1, b1, n1) =>
      match attempts k b1 n1 with
      | (Ok l2, b2, n2) => (Ok (l1 ++ l2), b2, n2)
      | other => other
      end
  | other => other
  end.
Proof.
  revert b n. induction j as [|j IH]; intros b n.
  - simpl. unfold ret. destruct (attempts k b n) as [[[l2|e] b2] n2]; reflexivity.
  - cbn [attempts Nat.add]. unfold bind, attempt, get, ret.
    destruct (run b n) as [[r b'] n']. rewrite IH.
    destruct (attempts j b' n') as [[[l1|e] b1] n1]; [|reflexivity].
    destruct (attempts k b1 n1) as [[[l2|e] b2] n2]; reflexivity.
Qed.

(** Calls made while the window is open and the counter stays below the
    limit are accepted, and each adds one to the counter. *)
Lemma attempts_accepted (k : nat) : forall (b : Bucket) (n : nat),
  (forall i, (i < k)%nat -> active b (Date_now (n + i))) ->
  (requestsMade b + Z.of_nat k <= limitNo b)%Z ->
  attempts k b n =
  (Ok (map (fun j => (Ok tt, (requestsMade b + Z.of_nat j)%Z)) (seq 1 k)),
   set_requestsMade (requestsMade b + Z.of_nat k) b, (n + k)%nat).
Proof.
  induction k as [|k IH]; intros b n Hact Hle.
  - simpl. unfold ret. rewrite set_requestsMade_same by lia.
    repeat f_equal. lia.
  - cbn [attempts]. unfold bind, attempt, get.
    rewrite run_accepted; [| replace n with (n + 0)%nat by lia; apply Hact; lia | lia].
    rewrite IH; cbn [requestsMade set_requestsMade since limitNo limitPeriod].
    + unfold ret. replace (S n + k)%nat with (n + S k)%nat by lia.
      do 2 f_equal.
      * f_equal. cbn [seq map]. f_equal.
        rewrite <- (seq_shift k 1), map_map. apply map_ext. intros j. f_equal. lia.
      * unfold set_requestsMade; cbn. f_equal. lia.
    + intros i Hi. specialize (Hact (S i) ltac:(lia)).
      replace (n + S i)%nat with (S n + i)%nat in Hact by lia. exact Hact.
    + lia.
Qed.

(** Calls made while the window is open and the counter has reached the
    limit are rejected and leave the bucket as it is. *)
Lemma attempts_rejected (k : nat) : forall (b : Bucket) (n : nat),
  (forall i, (i < k)%nat -> active b (Date_now (n + 2 * i))) ->
  (limitNo b <= requestsMade b)%Z ->
  attempts k b n =
  (Ok (map (fun i => (Throw (RateLimitExceeded b (Date_now (n + 2 * i + 1))), requestsMade b))
           (seq 0 k)),
   b, (n + 2 * k)%nat).
Proof.
  induction k as [|k IH]; intros b n Hact Hge.
  - simpl. unfold ret. repeat f_equal. lia.
  - cbn [attempts]. unfold bind, attempt, get.
    rewrite run_rejected; [| replace n with (n + 2 * 0)%nat by lia; apply Hact; lia | lia].
    rewrite IH.
    + unfold ret. replace (S (S n) + 2 * k)%nat with (n + 2 * S k)%nat by lia.
      do 3 f_equal. cbn [seq map]. f_equal.
      * replace (n + 2 * 0 + 1)%nat with (S n) by lia. reflexivity.
      * rewrite <- (seq_shift k 0), map_map. apply map_ext. intros i.
        replace (n + 2 * S i + 1)%nat with (S (S n) + 2 * i + 1)%nat by lia.
        reflexivity.
    + intros i Hi. replace (S (S n) + 2 * i)%nat with (n + 2 * S i)%nat by lia.
      apply Hact. lia.
    + lia.
Qed.


Lemma trigger_eq (r : Q) (b : Bucket) (n : nat) :
  trigger r b n =
  (Ok tt, set_since (Date_now n + r * 1000) (set_requestsMade (limitNo b) b), S n).
Proof. reflexivity. Qed.

(** C6: when the window has expired at the reading [run] tests, that is
    when [now - since >= limitPeriod * 1000], the call succeeds whatever
    the counter was; afterwards the counter is 1 and [since] is the
    reading the call takes when it resets the window. *)
Theorem run_expired_window_resets (b : Bucket) (n : nat) :
  limitPeriod b * 1000 <= Date_now n - since b ->
  exists b',
    run b n = (Ok tt, b', S (S n)) /\
    requestsMade b' = 1%Z /\
    since b' = Date_now (S n) /\
    limitNo b' = limitNo b /\
    limitPeriod b' = limitPeriod b.
Proof.
  intros Hexp. eexists. split.
  - apply run_expired. unfold active. apply Qle_not_lt. exact Hexp.
  - repeat split.
Qed.

(** C7: [run] throws exactly when the window is open and the counter has
    reached the limit; the error is a [RatelimitError] whose [retryAfter] is
    [(since + limitPeriod * 1000 - now) / 1000 + 5], [now] being the
    reading taken to build the error, and whose [isLocal] is [true]. *)
Theorem run_failure_payload (b : Bucket) (n : nat) :
  (active b (Date_now n) /\ (requestsMade b >= limitNo b)%Z ->
   run b n =
   (Throw (RatelimitError
             {| message := Given (JS.Str "Too many requests"); status := JS.Num 429 |}
             (JS.Num (((since b + (limitPeriod b * 1000)) - Date_now (S n)) / 1000 + 5))
             (JS.Bool true)),
    b, S (S n))) /\
  (forall e b' n', run b n = (Throw e, b', n') ->
     active b (Date_now n) /\ (requestsMade b >= limitNo b)%Z).
Proof.
  split.
  - intros [Hact Hge]. apply run_rejected; [exact Hact | lia].
  - intros e b' n' Hrun.
    destruct (Qlt_le_dec (Date_now n - since b) (limitPeriod b * 1000)) as [Hact|Hexp].
    + destruct (Z_lt_ge_dec (requestsMade b) (limitNo b)) as [Hlt|Hge].
      * rewrite run_accepted in Hrun by assumption. discriminate.
      * split; assumption.
    + rewrite run_expired in Hrun by (apply Qle_not_lt; exact Hexp). discriminate.
Qed.

(** C2: [trigger r] called when the clock reads [t0] closes the bucket
    until [t0 + (r + limitPeriod) * 1000]: every one of [k] successive
    [run] calls that reads the clock before that instant is rejected with a
    local [RatelimitError] and leaves the counter at the limit, whatever
    [k], and the next call, which reads the clock at or after that
    instant, succeeds. *)
Theorem trigger_closes_bucket (b : Bucket) (r : Q) (n0 m k : nat) :
  let b1 := snd (fst (trigger r b n0)) in
  let reopening := Date_now n0 + (r + limitPeriod b) * 1000 in
  (forall i, (i < k)%nat -> Date_now (m + 2 * i) < reopening) ->
  reopening <= Date_now (m + 2 * k) ->
  exists rejected,
    fst (fst (attempts (k + 1) b1 m)) = Ok (rejected ++ [(Ok tt, 1%Z)]) /\
    length rejected = k /\
    Forall (fun o => failed_locally (fst o) = true /\ snd o = limitNo b) rejected.
Proof.
  intros b1 reopening Hbefore Hafter. subst b1. rewrite trigger_eq. cbn [fst snd].
  set (b1 := set_since _ _).
  assert (Hwin : forall t, active b1 t <-> t < reopening).
  { intros t. unfold active, reopening. subst b1. cbn. split; intros; lra. }
  rewrite attempts_app, attempts_rejected.
  - cbn [attempts]. unfold bind, attempt, get, ret.
    rewrite run_expired by (rewrite Hwin; apply Qle_not_lt; exact Hafter).
    eexists. cbn [fst snd]. split; [reflexivity|]. split.
    + rewrite length_map, length_seq. reflexivity.
    + apply List.Forall_forall. intros o Ho. apply in_map_iff in Ho as (i & <- & _).
      split; reflexivity.
  - intros i Hi. apply Hwin, Hbefore, Hi.
  - subst b1. cbn. lia.
Qed.

(** C3: take a bucket whose limit is [L + 1 > 0] and a first call that
    opens a window (the old one has expired) or finds an open window with
    no call counted yet.  While the clock readings stay inside that window,
    calls 1 to [limit] succeed, the [j]-th leaving the counter at [j], and
    call [limit + 1] is rejected with a local [RatelimitError], the counter
    staying at [limit]. *)
Theorem run_quota_of_window (b : Bucket) (n L : nat) :
  limitNo b = Z.of_nat (S L) ->
  ~ active b (Date_now n) \/ requestsMade b = 0%Z ->
  (forall i, (i <= L)%nat ->
     active (snd (fst (run b n))) (Date_now (snd (run b n) + i))) ->
  exists e,
    fst (fst (attempts (S L + 1) b n)) =
      Ok (map (fun j => (Ok tt, Z.of_nat j)) (seq 1 (S L)) ++ [(Throw e, Z.of_nat (S L))]) /\
    is_local_ratelimit e = true.
Proof.
  intros Hlim Hstart Hin.
  assert (exists b1 n1, run b n = (Ok tt, b1, n1) /\ requestsMade b1 = 1%Z /\
                        limitNo b1 = limitNo b) as (b1 & n1 & Hrun & Hc1 & Hl1).
  { destruct (Qlt_le_dec (Date_now n - since b) (limitPeriod b * 1000)) as [Hact|Hexp].
    - destruct Hstart as [Hno|Hzero]; [contradiction|].
      rewrite run_accepted by (try assumption; lia).
      do 2 eexists. split; [reflexivity|]. cbn. lia.
    - rewrite run_expired by (apply Qle_not_lt; exact Hexp).
      do 2 eexists. split; [reflexivity|]. cbn. lia. }
  rewrite Hrun in Hin. cbn [fst snd] in Hin.
  rewrite attempts_app. cbn [attempts]. unfold bind at 1, attempt, get at 1.
  rewrite Hrun. unfold bind at 1 2.
  rewrite (attempts_accepted L b1 n1); [| intros i Hi; apply Hin; lia | lia].
  unfold ret at 1. cbn [attempts]. unfold bind, attempt, get, ret.
  rewrite run_rejected; cbn [requestsMade set_requestsMade since limitNo limitPeriod].
  - eexists (RateLimitExceeded _ _). cbn [fst snd]. split; [|reflexivity].
    rewrite Hc1. f_equal. f_equal.
    + cbn [seq map]. f_equal.
      rewrite <- (seq_shift L 1), map_map. apply map_ext. intros j. f_equal. lia.
    + f_equal. f_equal. lia.
  - apply (Hin L). lia.
  - lia.
Qed.


(** ** Properties of the cache *)

Lemma setCache_eq (id : string) (v : JS.Value) (c : Client) (n : nat) :
  setCache id v c n =
  (Ok tt,
   set_cache (<[id := {| item := v; expires := Date_now n + (cacheTime c * 1000) |}]> (cache c)) c,
   S n).
Proof. reflexivity. Qed.

Lemma getCache_live (id : string) (c : Client) (n : nat) (ci : CacheItem) :
  cache c !! id = Some ci ->
  Date_now n < expires ci ->
  getCache id c n = (Ok (item ci), c, S n).
Proof.
  intros Hget Hlive. unfold getCache, bind, get, now, ret. rewrite Hget.
  apply Qlt_bool_true in Hlive. rewrite Hlive. reflexivity.
Qed.

Lemma getCache_expired (id : string) (c : Client) (n : nat) (ci : CacheItem) :
  cache c !! id = Some ci ->
  expires ci <= Date_now n ->
  getCache id c n = (Ok JS.Undefined, c, S n).
Proof.
  intros Hget Hold. unfold getCache, bind, get, now, ret. rewrite Hget.
  apply Qlt_bool_false in Hold. rewrite Hold. reflexivity.
Qed.

Lemma getCache_absent (id : string) (c : Client) (n : nat) :
  cache c !! id = None ->
  getCache id c n = (Ok JS.Undefined, c, n).
Proof.
  intros Hget. unfold getCache, bind, get, ret. rewrite Hget. reflexivity.
Qed.

(** C8: [setCache k v] stores under [k] the entry with item [v] and
    [expires = now + cacheTime * 1000].  A later [getCache k] returns [v]
    when it reads the clock before [expires], as an immediate one does
    (the clock has not moved and the time to live is positive), and
    returns [undefined] once the clock has reached [expires]; in both cases
    it leaves the store as it is, so the entry is still there. *)
Theorem cache_entry_expires (k : string) (v : JS.Value) (c : Client) (n : nat) :
  let c1 := snd (fst (setCache k v c n)) in
  let expiresAt := Date_now n + cacheTime c * 1000 in
  cache c1 !! k = Some {| item := v; expires := expiresAt |} /\
  (0 < cacheTime c -> Date_now (S n) == Date_now n ->
   bind (setCache k v) (fun _ => getCache k) c n = (Ok v, c1, S (S n))) /\
  forall m,
    (Date_now m < expiresAt -> getCache k c1 m = (Ok v, c1, S m)) /\
    (expiresAt <= Date_now m -> getCache k c1 m = (Ok JS.Undefined, c1, S m)).
Proof.
  intros c1 expiresAt. subst c1. unfold bind. rewrite setCache_eq. cbn [fst snd].
  assert (Hget : cache (set_cache (<[k := {| item := v; expires := expiresAt |}]> (cache c)) c)
                 !! k = Some {| item := v; expires := expiresAt |}).
  { cbn. apply lookup_insert_eq. }
  split; [exact Hget|]. split.
  - intros Httl Hsame. apply (getCache_live _ _ _ _ Hget).
    cbn. unfold expiresAt. rewrite Hsame. lra.
  - intros m. split; intros Hm.
    + apply (getCache_live _ _ _ _ Hget). exact Hm.
    + apply (getCache_expired _ _ _ _ Hget). exact Hm.
Qed.

(** ** Properties of the client *)

(** Evaluates the plumbing of a computation, up to the calls that need a
    hypothesis. *)
Ltac js_eval :=
  cbv beta iota zeta
    delta [bind ret throw get modify zoom lift now on_global on_reverse do_fetch attempt];
  cbn [fst snd useLog token cacheTime globalRatelimit reverseRatelimit cache requests
       set_useLog set_token set_cacheTime set_globalRatelimit set_reverseRatelimit
       set_cache set_requests sent request_of].

Lemma bind_eq {St A B} (m : M St A) (k : A -> M St B) (s : St) (n : nat) :
  bind m k s n =
  match m s n with
  | (Ok a, s', n') => k a s' n'
  | (Throw e, s', n') => (Throw e, s', n')
  end.
Proof. reflexivity. Qed.

Lemma makeRequest_rejected (uri : string) (c : Client) (n : nat) e gb n1 :
  run (globalRatelimit c) n = (Throw e, gb, n1) ->
  makeRequest uri c n = (Throw e, set_globalRatelimit gb c, n1).
Proof.
  intros Hrun. unfold makeRequest. js_eval. rewrite Hrun. reflexivity.
Qed.

Lemma makeRequest_no_answer (uri : string) (c : Client) (n : nat) gb n1 :
  run (globalRatelimit c) n = (Ok tt, gb, n1) ->
  fetch (length (requests c)) (request_of uri c) = None ->
  makeRequest uri c n = (Throw Rejected, sent uri gb c, n1).
Proof.
  intros Hrun Hfetch. unfold makeRequest. js_eval. rewrite Hrun. js_eval.
  unfold request_of in Hfetch. rewrite Hfetch. reflexivity.
Qed.

Lemma makeRequest_ok (uri : string) (c : Client) (n : nat) gb n1 res :
  run (globalRatelimit c) n = (Ok tt, gb, n1) ->
  fetch (length (requests c)) (request_of uri c) = Some res ->
  res_ok res = true ->
  makeRequest uri c n = (Ok (res_json res), sent uri gb c, n1).
Proof.
  intros Hrun Hfetch Hok. unfold makeRequest. js_eval. rewrite Hrun. js_eval.
  unfold request_of in Hfetch. rewrite Hfetch. js_eval. rewrite Hok. reflexivity.
Qed.

Lemma makeRequest_404 (uri : string) (c : Client) (n : nat) gb n1 res :
  run (globalRatelimit c) n = (Ok tt, gb, n1) ->
  fetch (length (requests c)) (request_of uri c) = Some res ->
  res_status res = 404%Z ->
  makeRequest uri c n = (Ok JS.Undefined, sent uri gb c, n1).
Proof.
  intros Hrun Hfetch Hst. unfold makeRequest. js_eval. rewrite Hrun. js_eval.
  unfold request_of in Hfetch. rewrite Hfetch. js_eval.
  unfold res_ok. rewrite Hst. reflexivity.
Qed.

Lemma new_RatelimitError_fields (error hint : JS.Value) :
  JS.prop error "retryAfter" = Some hint ->
  exists h l,
    JS.prop error "isLocal" = Some l /\
    new_RatelimitError error = RatelimitError h hint (JS.or l (JS.Bool false)).
Proof.
  intros Hhint. unfold new_RatelimitError, new_HttpErrorFields.
  destruct error; try discriminate; cbn in *.
  all: injection Hhint as <-; do 2 eexists; split; reflexivity.
Qed.

Lemma makeRequest_429 (uri : string) (c : Client) (n : nat) gb n1 res error hint r :
  run (globalRatelimit c) n = (Ok tt, gb, n1) ->
  fetch (length (requests c)) (request_of uri c) = Some res ->
  res_status res = 429%Z ->
  JS.prop (res_json res) "error" = Some error ->
  JS.prop error "retryAfter" = Some hint ->
  JS.ToNumber (JS.or hint (JS.Num 3000)) = Some r ->
  makeRequest uri c n =
  (Throw (new_RatelimitError error),
   sent uri (snd (fst (trigger r gb n1))) c, S n1).
Proof.
  intros Hrun Hfetch Hst Herr Hhint Hnum. unfold makeRequest. js_eval. rewrite Hrun. js_eval.
  unfold request_of in Hfetch. rewrite Hfetch. js_eval.
  unfold res_ok. rewrite Hst. cbn [Z.leb Z.ltb Z.eqb Z.compare Pos.compare Pos.compare_cont
                                    andb Pos.eqb].
  rewrite Herr. js_eval. rewrite Hhint. js_eval. rewrite Hnum. js_eval.
  reflexivity.
Qed.


(** *** What a computation leaves alone *)

Lemma keeps_ret {St A X} (f : St -> X) (a : A) : keeps f (ret a).
Proof. intros s n. reflexivity. Qed.

Lemma keeps_throw {St A X} (f : St -> X) (e : Exn) : keeps f (@throw St A e).
Proof. intros s n. reflexivity. Qed.

Lemma keeps_get {St X} (f : St -> X) : keeps f get.
Proof. intros s n. reflexivity. Qed.

Lemma keeps_now {St X} (f : St -> X) : keeps f now.
Proof. intros s n. reflexivity. Qed.

Lemma keeps_lift {St A X} (f : St -> X) (o : option A) : keeps f (lift o).
Proof. intros s n. destruct o; reflexivity. Qed.

Lemma keeps_modify {St X} (f : St -> X) (g : St -> St) :
  (forall s, f (g s) = f s) -> keeps f (modify g).
Proof. intros Hg s n. apply Hg. Qed.

Lemma keeps_zoom {St T A X} (f : St -> X) (proj : St -> T) (upd : T -> St -> St)
    (m : M T A) :
  (forall t s, f (upd t s) = f s) -> keeps f (zoom proj upd m).
Proof.
  intros Hupd s n. unfold zoom. destruct (m (proj s) n) as [[r t'] n']. apply Hupd.
Qed.

Lemma keeps_bind {St A B X} (f : St -> X) (m : M St A) (k : A -> M St B) :
  keeps f m -> (forall a, keeps f (k a)) -> keeps f (bind m k).
Proof.
  intros Hm Hk s n. unfold bind. specialize (Hm s n).
  destruct (m s n) as [[[a|e] s'] n']; cbn [fst snd] in *.
  - rewrite Hk. exact Hm.
  - exact Hm.
Qed.

Lemma keeps_attempt {St A X} (f : St -> X) (m : M St A) :
  keeps f m -> keeps f (attempt m).
Proof.
  intros Hm s n. unfold attempt. specialize (Hm s n).
  destruct (m s n) as [[r s'] n']. exact Hm.
Qed.

(** Proves [keeps f m] by following the structure of [m]. *)
Ltac keeps_tac :=
  repeat first
    [ apply keeps_ret | apply keeps_throw | apply keeps_get | apply keeps_now
    | apply keeps_lift
    | apply keeps_modify; intros; reflexivity
    | apply keeps_zoom; intros; reflexivity
    | apply keeps_attempt
    | apply keeps_bind; [|intros]
    | match goal with
      | |- keeps _ (if ?b then _ else _) => destruct b
      | |- keeps _ (match ?x with _ => _ end) => destruct x
      | |- keeps _ (let _ := _ in _) => cbv zeta
      end ].

(** The lookups leave the options alone. *)
Lemma getRoblox_keeps_options (id : string) :
  keeps (fun c => (useLog c, token c, cacheTime c)) (getRoblox id).
Proof.
  unfold getRoblox, getRoblox_request, getCache, setCache, makeRequest, on_global, do_fetch.
  keeps_tac.
Qed.

Lemma getDiscord_keeps_options (id : string) :
  keeps (fun c => (useLog c, token c, cacheTime c)) (getDiscord id).
Proof.
  unfold getDiscord, getDiscord_request, getCache, setCache, makeRequest,
    on_global, on_reverse, do_fetch.
  keeps_tac.
Qed.


Lemma makeRequest_sent (uri : string) (c : Client) (n : nat) gb n1 :
  run (globalRatelimit c) n = (Ok tt, gb, n1) ->
  exists r gb' n',
    makeRequest uri c n = (r, sent uri gb' c, n') /\
    (gb' = gb \/
     exists res, fetch (length (requests c)) (request_of uri c) = Some res /\
                 res_status res = 429%Z).
Proof.
  intros Hrun. unfold makeRequest. js_eval. rewrite Hrun. js_eval.
  destruct (fetch _ _) as [res|]; js_eval; [|do 3 eexists; split; [reflexivity|auto]].
  destruct (res_ok res); [do 3 eexists; split; [reflexivity|auto]|].
  destruct (res_status res =? 429)%Z eqn:Hst.
  - apply Z.eqb_eq in Hst.
    destruct (JS.prop (res_json res) "error") as [error|]; js_eval;
      [|do 3 eexists; split; [reflexivity|auto]].
    destruct (JS.prop error "retryAfter") as [hint|]; js_eval;
      [|do 3 eexists; split; [reflexivity|auto]].
    destruct (JS.ToNumber _) as [r|]; js_eval; do 3 eexists; (split; [reflexivity|eauto]).
  - destruct (res_status res =? 404)%Z; [do 3 eexists; split; [reflexivity|auto]|].
    destruct (JS.prop (res_json res) "error") as [error|]; js_eval;
      [|do 3 eexists; split; [reflexivity|auto]].
    destruct (JS.truthy error); do 3 eexists; (split; [reflexivity|auto]).
Qed.







Lemma getCache_misses (id : string) (c : Client) (n : nat) :
  misses c id n = true ->
  exists v n0,
    getCache id c n = (Ok v, c, n0) /\ JS.truthy v = false /\ (n <= n0 <= S n)%nat.
Proof.
  unfold misses, getCache. js_eval. destruct (cache c !! id) as [ci|]; js_eval.
  - destruct (Qlt_bool (Date_now n) (expires ci)); cbn [andb negb]; intros Hm.
    + exists (item ci), (S n). apply negb_true_iff in Hm. repeat split; [assumption|lia|lia].
    + exists JS.Undefined, (S n). repeat split; lia.
  - intros _. exists JS.Undefined, n. repeat split; lia.
Qed.

Lemma getRoblox_miss (id : string) (c : Client) (n : nat) :
  misses c ("d-" +:+ id) n = true ->
  getRoblox id c n =
  getRoblox_request id ("d-" +:+ id) c (snd (getCache ("d-" +:+ id) c n)).
Proof.
  intros Hm. destruct (getCache_misses _ _ _ Hm) as (v & n0 & Hget & Hv & _).
  unfold getRoblox. cbv zeta. unfold bind at 1. rewrite Hget, Hv. reflexivity.
Qed.

Lemma getDiscord_miss (id : string) (c : Client) (n : nat) :
  misses c ("r-" +:+ id) n = true ->
  getDiscord id c n =
  getDiscord_request id ("r-" +:+ id) c (snd (getCache ("r-" +:+ id) c n)).
Proof.
  intros Hm. destruct (getCache_misses _ _ _ Hm) as (v & n0 & Hget & Hv & _).
  unfold getDiscord. cbv zeta. unfold bind at 1. rewrite Hget, Hv. reflexivity.
Qed.

(** What is left of a lookup once [makeRequest] has returned. *)
Lemma after_makeRequest (field key : string) (r : Result JS.Value) (c1 : Client) (n1 : nat) :
  exists r' c' n',
    match r with
    | Ok full =>
        (if negb (JS.truthy full) then ret JS.Undefined
         else
           bind (if JS.truthy full then lift (JS.prop full field) else ret full)
             (fun v => bind (setCache key v) (fun _ => ret v))) c1 n1
    | Throw e => (Throw e, c1, n1)
    end = (r', c', n') /\
    requests c' = requests c1 /\
    globalRatelimit c' = globalRatelimit c1 /\
    reverseRatelimit c' = reverseRatelimit c1.
Proof.
  destruct r as [full|e]; [|do 3 eexists; repeat split].
  destruct (JS.truthy full); cbn [negb]; [|do 3 eexists; repeat split].
  js_eval. destruct (JS.prop full field); js_eval; do 3 eexists; repeat split.
Qed.

(** How the part of [getRoblox] after the cache guard goes. *)
Lemma getRoblox_request_cases (id key : string) (c : Client) (n0 : nat) :
  match run (globalRatelimit c) n0 with
  | (Throw e, gb, n1) =>
      getRoblox_request id key c n0 = (Throw e, set_globalRatelimit gb c, n1) /\
      is_local_ratelimit e = true
  | (Ok _, gb, n1) =>
      exists r c' n',
        getRoblox_request id key c n0 = (r, c', n') /\
        requests c' = requests c ++ [request_of ("/api/roblox/" +:+ id) c] /\
        reverseRatelimit c' = reverseRatelimit c /\
        (globalRatelimit c' = gb \/
         exists res,
           fetch (length (requests c)) (request_of ("/api/roblox/" +:+ id) c)
           = Some res /\ res_status res = 429%Z)
  end.
Proof.
  unfold getRoblox_request. rewrite bind_eq.
  destruct (run (globalRatelimit c) n0) as [[[[]|e] gb] n1] eqn:Hglob.
  - destruct (makeRequest_sent ("/api/roblox/" +:+ id) c n0 gb n1 Hglob)
      as (r & gb' & n' & Hreq & Hgb).
    rewrite Hreq.
    destruct (after_makeRequest "robloxId" key r (sent ("/api/roblox/" +:+ id) gb' c) n')
      as (r' & c' & n'' & Hrest & Hreqs & Hg & Hr).
    exists r', c', n''. split; [exact Hrest|].
    rewrite Hreqs, Hr, Hg. cbn. repeat split.
    destruct Hgb as [->|Hres]; [left; reflexivity | right; exact Hres].
  - rewrite (makeRequest_rejected _ c n0 e gb n1 Hglob).
    split; [reflexivity|].
    destruct (run_cases (globalRatelimit c) n0) as [[_ H]|[(_ & _ & H)|(_ & _ & H)]];
      rewrite H in Hglob; try discriminate.
    injection Hglob as <- _ _. reflexivity.
Qed.

(** How the part of [getDiscord] after the cache guard goes. *)
Lemma getDiscord_request_cases (id key : string) (c : Client) (n0 : nat) :
  match run (reverseRatelimit c) n0 with
  | (Throw e, rb, n1) =>
      getDiscord_request id key c n0 = (Throw e, set_reverseRatelimit rb c, n1) /\
      is_local_ratelimit e = true
  | (Ok _, rb, n1) =>
      match run (globalRatelimit c) n1 with
      | (Throw e, gb, n2) =>
          getDiscord_request id key c n0 =
          (Throw e, set_globalRatelimit gb (set_reverseRatelimit rb c), n2) /\
          is_local_ratelimit e = true
      | (Ok _, gb, n2) =>
          exists r c' n',
            getDiscord_request id key c n0 = (r, c', n') /\
            requests c' = requests c ++ [request_of ("/api/reverse/" +:+ id) c] /\
            reverseRatelimit c' = rb /\
            (globalRatelimit c' = gb \/
             exists res,
               fetch (length (requests c)) (request_of ("/api/reverse/" +:+ id) c)
               = Some res /\ res_status res = 429%Z)
      end
  end.
Proof.
  unfold getDiscord_request. rewrite bind_eq. unfold on_reverse, zoom.
  destruct (run (reverseRatelimit c) n0) as [[[[]|e] rb] n1] eqn:Hrev.
  2:{ split; [reflexivity|].
      destruct (run_cases (reverseRatelimit c) n0) as [[_ H]|[(_ & _ & H)|(_ & _ & H)]];
        rewrite H in Hrev; try discriminate.
      injection Hrev as <- _ _. reflexivity. }
  set (c1 := set_reverseRatelimit rb c).
  change (globalRatelimit c) with (globalRatelimit c1).
  rewrite bind_eq.
  destruct (run (globalRatelimit c1) n1) as [[[[]|e] gb] n2] eqn:Hglob.
  - destruct (makeRequest_sent ("/api/reverse/" +:+ id) c1 n1 gb n2 Hglob)
      as (r & gb' & n' & Hreq & Hgb).
    rewrite Hreq.
    destruct (after_makeRequest "discordId" key r
                (sent ("/api/reverse/" +:+ id) gb' c1) n')
      as (r' & c' & n'' & Hrest & Hreqs & Hg & Hr).
    exists r', c', n''. split; [exact Hrest|].
    rewrite Hreqs, Hr, Hg. cbn. repeat split.
    destruct Hgb as [->|Hres]; [left; reflexivity | right; exact Hres].
  - rewrite (makeRequest_rejected _ c1 n1 e gb n2 Hglob).
    split; [reflexivity|].
    destruct (run_cases (globalRatelimit c1) n1) as [[_ H]|[(_ & _ & H)|(_ & _ & H)]];
      rewrite H in Hglob; try discriminate.
    injection Hglob as <- _ _. reflexivity.
Qed.

(** C9: a [getDiscord] that misses the cache runs the reverse bucket
    first; unless that throws, it then runs the global bucket, inside
    [makeRequest]; unless that throws too, it sends its request, and both
    buckets have been run: each has counted the call.  And there are
    states in which the reverse bucket is below its limit and the call
    fails with the local [RatelimitError] of the global bucket. *)
Theorem getDiscord_runs_both_buckets :
  (forall (id : string) (c : Client) (n : nat),
     misses c ("r-" +:+ id) n = true ->
     match run (reverseRatelimit c) (snd (getCache ("r-" +:+ id) c n)) with
     | (Throw e, rb, n1) =>
         getDiscord id c n = (Throw e, set_reverseRatelimit rb c, n1) /\
         is_local_ratelimit e = true
     | (Ok _, rb, n1) =>
         match run (globalRatelimit c) n1 with
         | (Throw e, gb, n2) =>
             getDiscord id c n =
             (Throw e, set_globalRatelimit gb (set_reverseRatelimit rb c), n2) /\
             is_local_ratelimit e = true
         | (Ok _, gb, n2) =>
             exists r c' n',
               getDiscord id c n = (r, c', n') /\
               requests c' = requests c ++ [request_of ("/api/reverse/" +:+ id) c] /\
               reverseRatelimit c' = rb /\
               (globalRatelimit c' = gb \/
                exists res,
                  fetch (length (requests c)) (request_of ("/api/reverse/" +:+ id) c)
                  = Some res /\ res_status res = 429%Z)
         end
     end) /\
  (exists (id : string) (c : Client) (n : nat),
     misses c ("r-" +:+ id) n = true /\
     (requestsMade (reverseRatelimit c) < limitNo (reverseRatelimit c))%Z /\
     exists c' n',
       getDiscord id c n =
         (Throw (RateLimitExceeded (globalRatelimit c) (Date_now (n + 2))), c', n') /\
       requests c' = requests c /\
       requestsMade (reverseRatelimit c') = (requestsMade (reverseRatelimit c) + 1)%Z).
Proof.
  split.
  2:{ set (rb := {| limitNo := 30; limitPeriod := 60; since := Date_now 0; requestsMade := 0 |}).
      set (gb := {| limitNo := 60; limitPeriod := 60; since := Date_now 1; requestsMade := 60 |}).
      set (c := set_globalRatelimit gb (set_reverseRatelimit rb init)).
      assert (Hm : misses c "r-1" 0 = true) by reflexivity.
      exists "1", c, 0%nat. split; [exact Hm|]. split; [cbn; lia|].
      rewrite (getDiscord_miss _ _ _ Hm). rewrite getCache_absent by reflexivity.
      cbn [snd]. unfold getDiscord_request. rewrite bind_eq. unfold on_reverse, zoom.
      rewrite run_accepted; [| unfold active; cbn; lra | cbn; lia].
      rewrite bind_eq. erewrite makeRequest_rejected;
        [| apply run_rejected; [unfold active; cbn; lra | cbn; lia]].
      do 2 eexists. split; [reflexivity|]. split; reflexivity. }
  intros id c n Hm. rewrite (getDiscord_miss _ _ _ Hm).
  apply getDiscord_request_cases.
Qed.


(** C10: when the cache holds, under the key of a lookup, an entry that
    has not expired and whose item is falsy, [getRoblox] and [getDiscord]
    do not return from the cache: they go on as after a miss.  The bucket
    is run (for [getDiscord] the reverse bucket, then the global one) and,
    unless a bucket rejects the call, a new request is sent. *)
Theorem falsy_cached_item_is_a_miss (id : string) (c : Client) (n : nat) (ci : CacheItem) :
  JS.truthy (item ci) = false ->
  Date_now n < expires ci ->
  (cache c !! ("d-" +:+ id) = Some ci ->
   getRoblox id c n = getRoblox_request id ("d-" +:+ id) c (S n) /\
   match run (globalRatelimit c) (S n) with
   | (Throw e, _, _) =>
       fst (fst (getRoblox id c n)) = Throw e /\ is_local_ratelimit e = true
   | (Ok _, _, _) =>
       requests (snd (fst (getRoblox id c n))) =
       requests c ++ [request_of ("/api/roblox/" +:+ id) c]
   end) /\
  (cache c !! ("r-" +:+ id) = Some ci ->
   getDiscord id c n = getDiscord_request id ("r-" +:+ id) c (S n) /\
   match run (reverseRatelimit c) (S n) with
   | (Throw e, _, _) =>
       fst (fst (getDiscord id c n)) = Throw e /\ is_local_ratelimit e = true
   | (Ok _, _, n1) =>
       match run (globalRatelimit c) n1 with
       | (Throw e, _, _) =>
           fst (fst (getDiscord id c n)) = Throw e /\ is_local_ratelimit e = true
       | (Ok _, _, _) =>
           requests (snd (fst (getDiscord id c n))) =
           requests c ++ [request_of ("/api/reverse/" +:+ id) c]
       end
   end).
Proof.
  intros Hfalsy Hlive. split; intros Hget.
  - assert (Heq : getRoblox id c n = getRoblox_request id ("d-" +:+ id) c (S n)).
    { unfold getRoblox. cbv zeta. rewrite bind_eq.
      rewrite (getCache_live _ _ _ _ Hget Hlive), Hfalsy. reflexivity. }
    split; [exact Heq|]. rewrite Heq.
    pose proof (getRoblox_request_cases id ("d-" +:+ id) c (S n)) as H.
    destruct (run (globalRatelimit c) (S n)) as [[[[]|e] gb] n1].
    + destruct H as (r & c' & n' & -> & Hreq & _). exact Hreq.
    + destruct H as [-> Hloc]. split; [reflexivity | exact Hloc].
  - assert (Heq : getDiscord id c n = getDiscord_request id ("r-" +:+ id) c (S n)).
    { unfold getDiscord. cbv zeta. rewrite bind_eq.
      rewrite (getCache_live _ _ _ _ Hget Hlive), Hfalsy. reflexivity. }
    split; [exact Heq|]. rewrite Heq.
    pose proof (getDiscord_request_cases id ("r-" +:+ id) c (S n)) as H.
    destruct (run (reverseRatelimit c) (S n)) as [[[[]|e] rb] n1].
    + destruct (run (globalRatelimit c) n1) as [[[[]|e] gb] n2].
      * destruct H as (r & c' & n' & -> & Hreq & _). exact Hreq.
      * destruct H as [-> Hloc]. split; [reflexivity | exact Hloc].
    + destruct H as [-> Hloc]. split; [reflexivity | exact Hloc].
Qed.

Lemma misses_later (c : Client) (key : string) (n m : nat) :
  misses c key n = true -> Date_now n <= Date_now m -> misses c key m = true.
Proof.
  unfold misses. destruct (cache c !! key) as [ci|]; [|reflexivity].
  rewrite !negb_true_iff, !andb_false_iff. intros [Hexp|Hfalsy] Hle; [left | right; assumption].
  apply Qlt_bool_false. apply Qlt_bool_false in Hexp. lra.
Qed.

Lemma misses_same_cache (c c' : Client) (key : string) (n : nat) :
  cache c' = cache c -> misses c' key n = misses c key n.
Proof. unfold misses. intros ->. reflexivity. Qed.

(** C1, as the code has it: when the answer to a forward lookup that
    missed the cache has status 404, [getRoblox] returns [undefined]
    without throwing and stores nothing: the cache is as it was.  A second
    lookup of the same id made later misses the cache again; it runs the
    bucket again and, unless the bucket rejects it, sends a second
    request. *)
Theorem not_found_is_not_cached
    (id : string) (c : Client) (n : nat) (res : Response) (gb : Bucket) (n1 : nat) :
  misses c ("d-" +:+ id) n = true ->
  run (globalRatelimit c) (snd (getCache ("d-" +:+ id) c n)) = (Ok tt, gb, n1) ->
  fetch (length (requests c)) (request_of ("/api/roblox/" +:+ id) c) = Some res ->
  res_status res = 404%Z ->
  let c1 := sent ("/api/roblox/" +:+ id) gb c in
  getRoblox id c n = (Ok JS.Undefined, c1, n1) /\
  cache c1 = cache c /\
  forall n2, Date_now n <= Date_now n2 ->
    match run (globalRatelimit c1) (snd (getCache ("d-" +:+ id) c1 n2)) with
    | (Throw e, _, _) =>
        fst (fst (getRoblox id c1 n2)) = Throw e /\ is_local_ratelimit e = true
    | (Ok _, _, _) =>
        requests (snd (fst (getRoblox id c1 n2))) =
        requests c ++ [request_of ("/api/roblox/" +:+ id) c;
                       request_of ("/api/roblox/" +:+ id) c]
    end.
Proof.
  intros Hm Hrun Hfetch Hst c1. split; [|split; [reflexivity|]].
  - rewrite (getRoblox_miss _ _ _ Hm). unfold getRoblox_request. rewrite bind_eq.
    rewrite (makeRequest_404 _ _ _ _ _ _ Hrun Hfetch Hst). reflexivity.
  - intros n2 Hlater.
    assert (Hm2 : misses c1 ("d-" +:+ id) n2 = true).
    { rewrite (misses_same_cache c c1) by reflexivity. eapply misses_later; eassumption. }
    rewrite (getRoblox_miss _ _ _ Hm2).
    pose proof (getRoblox_request_cases id ("d-" +:+ id) c1
                  (snd (getCache ("d-" +:+ id) c1 n2))) as H.
    destruct (run (globalRatelimit c1) _) as [[[[]|e] gb2] n3].
    + destruct H as (r & c' & n' & -> & Hreq & _). cbn [fst snd]. rewrite Hreq.
      subst c1. cbn. rewrite <- app_assoc. reflexivity.
    + destruct H as [-> Hloc]. split; [reflexivity | exact Hloc].
Qed.


(** While the global bucket is closed, a lookup that misses the cache is
    rejected locally; it sends nothing and leaves the global bucket and
    the cache as they are. *)
Lemma call_blocked (op : Call) (key : string) (c : Client) (n : nat) :
  cacheKey op = Some key ->
  (forall m, (n <= m < n + 5)%nat -> misses c key m = true) ->
  (limitNo (globalRatelimit c) <= requestsMade (globalRatelimit c))%Z ->
  (forall m, (n <= m < n + 5)%nat -> active (globalRatelimit c) (Date_now m)) ->
  exists e c' n',
    call op c n = (Ok (Throw e), c', n') /\
    is_local_ratelimit e = true /\
    globalRatelimit c' = globalRatelimit c /\
    cache c' = cache c /\
    requests c' = requests c /\
    (n <= n' <= n + 5)%nat.
Proof.
  intros Hkey Hmiss Hfull Hact.
  assert (Hm : misses c key n = true) by (apply Hmiss; lia).
  destruct (getCache_misses _ _ _ Hm) as (v & n0 & Hget & Hv & Hn0).
  destruct op as [opt|id|id]; cbn [cacheKey] in Hkey; [discriminate| |];
    injection Hkey as <-; cbn [call]; unfold attempt.
  - rewrite (getRoblox_miss _ _ _ Hm), Hget. cbn [snd].
    pose proof (getRoblox_request_cases id ("d-" +:+ id) c n0) as H.
    rewrite run_rejected in H by (try apply Hact; lia).
    destruct H as [-> Hloc]. do 3 eexists. split; [reflexivity|].
    cbn. repeat split; try assumption; lia.
  - rewrite (getDiscord_miss _ _ _ Hm), Hget. cbn [snd].
    pose proof (getDiscord_request_cases id ("r-" +:+ id) c n0) as H.
    destruct (run_cases (reverseRatelimit c) n0)
      as [[_ Hrev]|[(_ & _ & Hrev)|(_ & _ & Hrev)]]; rewrite Hrev in H.
    + rewrite run_rejected in H by (try apply Hact; lia).
      destruct H as [-> Hloc]. do 3 eexists. split; [reflexivity|].
      cbn. repeat split; try assumption; lia.
    + rewrite run_rejected in H by (try apply Hact; lia).
      destruct H as [-> Hloc]. do 3 eexists. split; [reflexivity|].
      cbn. repeat split; try assumption; lia.
    + destruct H as [-> Hloc]. do 3 eexists. split; [reflexivity|].
      cbn. repeat split; try assumption; lia.
Qed.

Lemma calls_blocked (ls : list Call) : forall (c : Client) (n : nat),
  (limitNo (globalRatelimit c) <= requestsMade (globalRatelimit c))%Z ->
  (forall m, (n <= m < n + 5 * length ls)%nat -> active (globalRatelimit c) (Date_now m)) ->
  List.Forall (fun op => exists key, cacheKey op = Some key /\
                 forall m, (n <= m < n + 5 * length ls)%nat -> misses c key m = true) ls ->
  exists rs c' n',
    calls ls c n = (Ok rs, c', n') /\
    List.Forall (fun r => failed_locally r = true) rs /\
    length rs = length ls /\
    globalRatelimit c' = globalRatelimit c /\
    cache c' = cache c /\
    requests c' = requests c.
Proof.
  induction ls as [|op rest IH]; intros c n Hfull Hact Hmiss.
  - exists [], c, n. repeat split. constructor.
  - inversion Hmiss as [|? ? (key & Hkey & Hk) Hrest]; subst.
    cbn [length] in *.
    destruct (call_blocked op key c n Hkey) as (e & c1 & n1 & Hcall & Hloc & Hg & Hc & Hr & Hn1);
      [intros; apply Hk; lia | exact Hfull | intros; apply Hact; lia |].
    destruct (IH c1 n1) as (rs & c2 & n2 & Hcalls & Hrs & Hlen & Hg2 & Hc2 & Hr2).
    + rewrite Hg. exact Hfull.
    + intros m Hm. rewrite Hg. apply Hact. lia.
    + eapply List.Forall_impl; [|exact Hrest]. cbn. intros op' (key' & Hkey' & Hk').
      exists key'. split; [exact Hkey'|]. intros m Hm.
      rewrite (misses_same_cache c c1) by exact Hc. apply Hk'. lia.
    + exists (Throw e :: rs), c2, n2. cbn [calls]. rewrite bind_eq, Hcall, bind_eq, Hcalls.
      split; [reflexivity|]. split; [constructor; assumption|].
      cbn [length]. repeat split; congruence.
Qed.


(** C4, as the code has it: take a [makeRequest] accepted by the global
    bucket and answered with status 429 and a body whose [error] object
    gives the hint [retryAfter].  It calls [trigger] on the global bucket
    with the hint, or with 3000 when the hint is missing or falsy, and
    throws the [RatelimitError] built from the remote [error], whose
    [isLocal] is [false] unless the remote object sets it.  As long as the
    clock reads less than the time of the [trigger] plus
    [(retryAfter + limitPeriod) * 1000], the lookups that miss the cache
    are rejected with a local [RatelimitError] and send nothing; a forward
    lookup that misses the cache once the clock has reached that instant
    sends a request again. *)
Theorem remote_rate_limit_closes_global_bucket
    (uri : string) (c : Client) (n : nat) (gb : Bucket) (n1 : nat)
    (res : Response) (error hint : JS.Value) (r : Q) :
  run (globalRatelimit c) n = (Ok tt, gb, n1) ->
  fetch (length (requests c)) (request_of uri c) = Some res ->
  res_status res = 429%Z ->
  JS.prop (res_json res) "error" = Some error ->
  JS.prop error "retryAfter" = Some hint ->
  JS.ToNumber (JS.or hint (JS.Num 3000)) = Some r ->
  let c1 := sent uri (snd (fst (trigger r gb n1))) c in
  let reopening := Date_now n1 + (r + limitPeriod gb) * 1000 in
  makeRequest uri c n = (Throw (new_RatelimitError error), c1, S n1) /\
  (JS.truthy hint = false -> r = 3000) /\
  (JS.truthy hint = true -> JS.ToNumber hint = Some r) /\
  (exists h l,
     JS.prop error "isLocal" = Some l /\
     new_RatelimitError error =
     RatelimitError h hint (if JS.truthy l then l else JS.Bool false)) /\
  (forall (ls : list Call) (m : nat),
     (forall i, (m <= i < m + 5 * length ls)%nat -> Date_now i < reopening) ->
     List.Forall (fun op => exists key, cacheKey op = Some key /\
                    forall i, (m <= i < m + 5 * length ls)%nat -> misses c key i = true) ls ->
     exists rs c2 n2,
       calls ls c1 m = (Ok rs, c2, n2) /\
       List.Forall (fun o => failed_locally o = true) rs /\
       length rs = length ls /\
       requests c2 = requests c1 /\
       globalRatelimit c2 = globalRatelimit c1) /\
  (forall (c2 : Client) (id : string) (m : nat),
     globalRatelimit c2 = globalRatelimit c1 ->
     misses c2 ("d-" +:+ id) m = true ->
     reopening <= Date_now (snd (getCache ("d-" +:+ id) c2 m)) ->
     requests (snd (fst (getRoblox id c2 m))) =
     requests c2 ++ [request_of ("/api/roblox/" +:+ id) c2]).
Proof.
  intros Hrun Hfetch Hst Herr Hhint Hnum c1 reopening.
  assert (Hwin : forall t, active (globalRatelimit c1) t <-> t < reopening).
  { intros t. unfold active, reopening. subst c1. cbn. split; intros; lra. }
  split; [exact (makeRequest_429 _ _ _ _ _ _ _ _ _ Hrun Hfetch Hst Herr Hhint Hnum)|].
  split; [|split; [|split; [|split]]].
  - intros Hf. unfold JS.or in Hnum. rewrite Hf in Hnum. cbn in Hnum. congruence.
  - intros Ht. unfold JS.or in Hnum. rewrite Ht in Hnum. exact Hnum.
  - destruct (new_RatelimitError_fields error hint Hhint) as (h & l & Hl & Hnew).
    exists h, l. split; [exact Hl | exact Hnew].
  - intros ls m Hbefore Hmiss.
    destruct (calls_blocked ls c1 m) as (rs & c2 & n2 & Hcalls & Hrs & Hlen & Hg & _ & Hr).
    + subst c1. cbn. lia.
    + intros i Hi. apply Hwin, Hbefore, Hi.
    + eapply List.Forall_impl; [|exact Hmiss]. cbn. intros op (key & Hkey & Hk).
      exists key. split; [exact Hkey|]. intros i Hi.
      rewrite (misses_same_cache c c1) by reflexivity. apply Hk, Hi.
    + exists rs, c2, n2. repeat split; assumption.
  - intros c2 id m Hg Hm Hafter. rewrite (getRoblox_miss _ _ _ Hm).
    pose proof (getRoblox_request_cases id ("d-" +:+ id) c2
                  (snd (getCache ("d-" +:+ id) c2 m))) as H.
    rewrite run_expired in H by (rewrite Hg, Hwin; apply Qle_not_lt; exact Hafter).
    destruct H as (r' & c' & n' & -> & Hreq & _). exact Hreq.
Qed.

(** ** Further properties of the bucket *)

Lemma run_params (b : Bucket) (n : nat) :
  limitNo (snd (fst (run b n))) = limitNo b /\
  limitPeriod (snd (fst (run b n))) = limitPeriod b.
Proof.
  destruct (run_cases b n) as [[_ H]|[(_ & _ & H)|(_ & _ & H)]]; rewrite H; split; reflexivity.
Qed.

Lemma bucket_call_params (op : BucketCall) (b : Bucket) (n : nat) :
  limitNo (snd (fst (bucket_call op b n))) = limitNo b /\
  limitPeriod (snd (fst (bucket_call op b n))) = limitPeriod b.
Proof.
  destruct op as [|r]; cbn [bucket_call]; unfold attempt.
  - pose proof (run_params b n) as H. destruct (run b n) as [[o b'] n']. exact H.
  - rewrite trigger_eq. split; reflexivity.
Qed.

Lemma bucket_calls_cons (op : BucketCall) (rest : list BucketCall) (b : Bucket) (n : nat) :
  snd (fst (bucket_calls (op :: rest) b n)) =
  snd (fst (bucket_calls rest (snd (fst (bucket_call op b n))) (snd (bucket_call op b n)))).
Proof.
  cbn [bucket_calls]. rewrite bind_eq.
  assert (exists r b1 n1, bucket_call op b n = (Ok r, b1, n1)) as (r & b1 & n1 & ->).
  { destruct op; cbn [bucket_call]; unfold attempt.
    - destruct (run b n) as [[o b1] n1]. do 3 eexists; reflexivity.
    - rewrite trigger_eq. do 3 eexists; reflexivity. }
  cbn [fst snd]. rewrite bind_eq.
  destruct (bucket_calls rest b1 n1) as [[[rs|e] b2] n2]; reflexivity.
Qed.

Lemma run_within_limit (b : Bucket) (n : nat) :
  (1 <= limitNo b)%Z -> within_limit b -> within_limit (snd (fst (run b n))).
Proof.
  unfold within_limit. intros Hlim Hb.
  destruct (run_cases b n) as [[_ H]|[(_ & Hlt & H)|(_ & _ & H)]]; rewrite H; cbn; lia.
Qed.

(** X1: a bucket whose limit is at least 1 and whose counter lies between 0
    and the limit keeps its limit and its period, and a counter between 0
    and the limit, whatever sequence of [run] and [trigger] calls is made on
    it. *)
Theorem bucket_calls_keep_policy (ops : list BucketCall) : forall (b : Bucket) (n : nat),
  (1 <= limitNo b)%Z ->
  within_limit b ->
  same_policy b (snd (fst (bucket_calls ops b n))).
Proof.
  induction ops as [|op rest IH]; intros b n Hlim Hb.
  - repeat split; apply Hb.
  - rewrite bucket_calls_cons.
    destruct (bucket_call_params op b n) as [Hl Hp].
    assert (Hw : within_limit (snd (fst (bucket_call op b n)))).
    { destruct op as [|r]; cbn [bucket_call]; unfold attempt.
      - pose proof (run_within_limit b n Hlim Hb) as H.
        destruct (run b n) as [[o b'] n']. exact H.
      - rewrite trigger_eq. unfold within_limit. cbn. lia. }
    destruct (IH (snd (fst (bucket_call op b n))) (snd (bucket_call op b n)))
      as (Hl' & Hp' & Hw'); [lia | exact Hw |].
    repeat split; [congruence | congruence | apply Hw' | apply Hw'].
Qed.

(** X2: the hint of a rejection is enough.  When [run] is rejected with
    [retryAfter = ra], built at the reading [t], a [run] that reads the
    clock at [t + (ra - 5) * 1000] or later, and so one made [ra] seconds
    after the rejection, succeeds and opens a new window. *)
Theorem retry_after_is_enough
    (b : Bucket) (n m : nat) (h : HttpErrorFields) (ra : Q) (l : JS.Value)
    (b' : Bucket) (n' : nat) :
  run b n = (Throw (RatelimitError h (JS.Num ra) l), b', n') ->
  Date_now (S n) + (ra - 5) * 1000 <= Date_now m ->
  run b' m = (Ok tt, set_requestsMade 1 (set_since (Date_now (S m)) b'), S (S m)).
Proof.
  intros Hrun Hwait.
  destruct (run_cases b n) as [[_ H]|[(_ & _ & H)|(_ & _ & H)]];
    rewrite H in Hrun; try discriminate.
  unfold RateLimitExceeded in Hrun. injection Hrun as _ Hra _ <- _.
  apply run_expired. unfold active. apply Qle_not_lt.
  rewrite <- Hra in Hwait. clear Hra H.
  set (t := Date_now (S n)) in *. set (t2 := Date_now m) in *.
  field_simplify in Hwait. lra.
Qed.

(** X3: a limit of 0 or less does not close a bucket.  The call that finds
    the window expired is accepted whatever the limit, and leaves the counter
    at 1; only the calls that follow it in the window it opened are
    rejected. *)
Theorem nonpositive_limit_admits_one_call_per_window (b : Bucket) (n k : nat) :
  (limitNo b <= 0)%Z ->
  ~ active b (Date_now n) ->
  (forall i, (i < k)%nat ->
     Date_now (S (S n) + 2 * i) - Date_now (S n) < limitPeriod b * 1000) ->
  exists rejected,
    fst (fst (attempts (1 + k) b n)) = Ok ((Ok tt, 1%Z) :: rejected) /\
    length rejected = k /\
    Forall (fun o => failed_locally (fst o) = true /\ snd o = 1%Z) rejected.
Proof.
  intros Hlim Hexp Hin.
  change (1 + k)%nat with (S k). cbn [attempts]. unfold bind, attempt, get, ret.
  rewrite run_expired by exact Hexp.
  rewrite attempts_rejected; [| exact Hin | cbn; lia].
  eexists. cbn [fst snd]. split; [reflexivity|]. split.
  - rewrite length_map, length_seq. reflexivity.
  - apply List.Forall_forall. intros o Ho. apply in_map_iff in Ho as (i & <- & _).
    split; reflexivity.
Qed.

(** X4: the fixed window lets a burst through at its boundary.  When [k]
    calls are still allowed in the open window and are made before it ends,
    and [limit] more calls follow once it has ended, the first of them
    opening the next window and the others falling in it, all [k + limit]
    calls are accepted, however close in time they are. *)
Theorem burst_across_window_boundary (b : Bucket) (n k L : nat) :
  limitNo b = Z.of_nat (S L) ->
  limitNo b = (requestsMade b + Z.of_nat k)%Z ->
  (forall i, (i < k)%nat -> active b (Date_now (n + i))) ->
  ~ active b (Date_now (n + k)) ->
  (forall i, (i < L)%nat ->
     Date_now (n + k + 2 + i) - Date_now (n + k + 1) < limitPeriod b * 1000) ->
  fst (fst (attempts (k + S L) b n)) =
  Ok (map (fun j => (Ok tt, (requestsMade b + Z.of_nat j)%Z)) (seq 1 k) ++
      map (fun j => (Ok tt, Z.of_nat j)) (seq 1 (S L))).
Proof.
  intros Hlim Hleft Hold Hend Hnew.
  rewrite attempts_app, attempts_accepted by (try assumption; lia).
  cbn [attempts]. unfold bind at 1, attempt, get at 1.
  rewrite run_expired by (cbn; exact Hend). unfold bind at 1 2.
  rewrite attempts_accepted; cbn [requestsMade set_requestsMade since set_since limitNo
                                   limitPeriod].
  - unfold ret. cbn [fst snd]. do 2 f_equal. cbn [seq map]. f_equal.
    rewrite <- (seq_shift L 1), map_map. apply map_ext. intros j. f_equal. lia.
  - intros i Hi. specialize (Hnew i Hi).
    replace (n + k + 2 + i)%nat with (S (S (n + k)) + i)%nat in Hnew by lia.
    replace (n + k + 1)%nat with (S (n + k)) in Hnew by lia. exact Hnew.
  - lia.
Qed.

(** ** Further properties of the cache and of the client *)

(** X6: [setCache] replaces, it does not merge: after two writes under the
    same key the store is the one the second write alone would have left,
    and the entries under the other keys are those of before. *)
Theorem setCache_replaces_one_entry
    (k k' : string) (v1 v2 : JS.Value) (c : Client) (n m : nat) :
  let c2 := snd (fst (setCache k v2 (snd (fst (setCache k v1 c n))) m)) in
  cache c2 = cache (snd (fst (setCache k v2 c m))) /\
  cache c2 !! k = Some {| item := v2; expires := Date_now m + cacheTime c * 1000 |} /\
  (k' <> k -> cache c2 !! k' = cache c !! k').
Proof.
  cbv zeta. rewrite !setCache_eq. cbn [fst snd cache set_cache cacheTime].
  rewrite insert_insert_eq. split; [reflexivity|]. split.
  - apply lookup_insert_eq.
  - intros Hne. apply lookup_insert_ne. congruence.
Qed.

(** X7: a lookup served from the cache costs nothing.  With an entry that
    has not expired and whose item is truthy, [getRoblox] and [getDiscord]
    return the item and leave the module as it is: no bucket is run and no
    request is sent. *)
Theorem cache_hit_is_free (id : string) (c : Client) (n : nat) (ci : CacheItem) :
  JS.truthy (item ci) = true ->
  Date_now n < expires ci ->
  (cache c !! ("d-" +:+ id) = Some ci -> getRoblox id c n = (Ok (item ci), c, S n)) /\
  (cache c !! ("r-" +:+ id) = Some ci -> getDiscord id c n = (Ok (item ci), c, S n)).
Proof.
  intros Htruthy Hlive. split; intros Hget.
  - unfold getRoblox. cbv zeta. rewrite bind_eq.
    rewrite (getCache_live _ _ _ _ Hget Hlive), Htruthy. reflexivity.
  - unfold getDiscord. cbv zeta. rewrite bind_eq.
    rewrite (getCache_live _ _ _ _ Hget Hlive), Htruthy. reflexivity.
Qed.

Lemma truthy_has_props (v : JS.Value) (name : string) :
  JS.truthy v = true -> exists w, JS.prop v name = Some w.
Proof. destruct v; cbn; try discriminate; eauto. Qed.

(** What a lookup does with the body of a successful answer. *)
Lemma after_ok_body (field key : string) (full v : JS.Value) (c1 : Client) (n1 : nat) :
  JS.truthy full = true ->
  JS.prop full field = Some v ->
  (if negb (JS.truthy full) then ret JS.Undefined
   else
     bind (if JS.truthy full then lift (JS.prop full field) else ret full)
       (fun r => bind (setCache key r) (fun _ => ret r))) c1 n1
  = (Ok v,
     set_cache (<[key := {| item := v; expires := Date_now n1 + cacheTime c1 * 1000 |}]>
                  (cache c1)) c1,
     S n1).
Proof. intros -> ->. reflexivity. Qed.

(** X8: a forward lookup that misses the cache, is accepted by the global
    bucket and gets a successful answer with a truthy body returns the
    [robloxId] of the body and stores it under its key, to expire
    [cacheTime] seconds after the reading [setCache] takes.  When that
    value is truthy, a lookup of the same id that reads the clock before the
    expiry returns it and leaves the module as it is. *)
Theorem found_roblox_id_is_cached
    (id : string) (c : Client) (n : nat) (gb : Bucket) (n1 : nat)
    (res : Response) (v : JS.Value) :
  misses c ("d-" +:+ id) n = true ->
  run (globalRatelimit c) (snd (getCache ("d-" +:+ id) c n)) = (Ok tt, gb, n1) ->
  fetch (length (requests c)) (request_of ("/api/roblox/" +:+ id) c) = Some res ->
  res_ok res = true ->
  JS.truthy (res_json res) = true ->
  JS.prop (res_json res) "robloxId" = Some v ->
  let c1 := set_cache (<["d-" +:+ id := {| item := v;
                                            expires := Date_now n1 + cacheTime c * 1000 |}]>
                         (cache c))
              (sent ("/api/roblox/" +:+ id) gb c) in
  getRoblox id c n = (Ok v, c1, S n1) /\
  forall m, JS.truthy v = true -> Date_now m < Date_now n1 + cacheTime c * 1000 ->
    getRoblox id c1 m = (Ok v, c1, S m).
Proof.
  intros Hm Hrun Hfetch Hok Hbody Hid c1. split.
  - rewrite (getRoblox_miss _ _ _ Hm). unfold getRoblox_request. rewrite bind_eq.
    rewrite (makeRequest_ok _ _ _ _ _ _ Hrun Hfetch Hok).
    rewrite (after_ok_body "robloxId" _ _ v _ _ Hbody Hid). reflexivity.
  - intros m Hv Hlive. unfold getRoblox. cbv zeta. rewrite bind_eq.
    rewrite (getCache_live _ c1 m {| item := v; expires := Date_now n1 + cacheTime c * 1000 |}).
    + cbn [item]. rewrite Hv. reflexivity.
    + subst c1. cbn. apply lookup_insert_eq.
    + exact Hlive.
Qed.

(** X9: the same for a reverse lookup, which is accepted by the reverse
    bucket and then by the global one: it returns the [discordId] of the
    body and stores it under its key, and a later lookup of the same id made
    before the expiry is served from the cache, without running a bucket. *)
Theorem found_discord_id_is_cached
    (id : string) (c : Client) (n : nat) (rb gb : Bucket) (n1 n2 : nat)
    (res : Response) (v : JS.Value) :
  misses c ("r-" +:+ id) n = true ->
  run (reverseRatelimit c) (snd (getCache ("r-" +:+ id) c n)) = (Ok tt, rb, n1) ->
  run (globalRatelimit c) n1 = (Ok tt, gb, n2) ->
  fetch (length (requests c)) (request_of ("/api/reverse/" +:+ id) c) = Some res ->
  res_ok res = true ->
  JS.truthy (res_json res) = true ->
  JS.prop (res_json res) "discordId" = Some v ->
  let c1 := set_cache (<["r-" +:+ id := {| item := v;
                                            expires := Date_now n2 + cacheTime c * 1000 |}]>
                         (cache c))
              (sent ("/api/reverse/" +:+ id) gb (set_reverseRatelimit rb c)) in
  getDiscord id c n = (Ok v, c1, S n2) /\
  forall m, JS.truthy v = true -> Date_now m < Date_now n2 + cacheTime c * 1000 ->
    getDiscord id c1 m = (Ok v, c1, S m).
Proof.
  intros Hm Hrev Hglob Hfetch Hok Hbody Hid c1. split.
  - rewrite (getDiscord_miss _ _ _ Hm). unfold getDiscord_request.
    rewrite bind_eq. unfold on_reverse, zoom. rewrite Hrev. rewrite bind_eq.
    rewrite (makeRequest_ok _ (set_reverseRatelimit rb c) _ gb n2 res Hglob Hfetch Hok).
    rewrite (after_ok_body "discordId" _ _ v _ _ Hbody Hid). reflexivity.
  - intros m Hv Hlive. unfold getDiscord. cbv zeta. rewrite bind_eq.
    rewrite (getCache_live _ c1 m {| item := v; expires := Date_now n2 + cacheTime c * 1000 |}).
    + cbn [item]. rewrite Hv. reflexivity.
    + subst c1. cbn. apply lookup_insert_eq.
    + exact Hlive.
Qed.

(** X10: a successful answer whose body is falsy ([null], [false], [0] or
    the empty string) is a "not found": the lookup returns [undefined] and
    stores nothing, although the call was counted and the request sent. *)
Theorem falsy_body_is_not_found
    (id : string) (c : Client) (n : nat) (gb : Bucket) (n1 : nat) (res : Response) :
  misses c ("d-" +:+ id) n = true ->
  run (globalRatelimit c) (snd (getCache ("d-" +:+ id) c n)) = (Ok tt, gb, n1) ->
  fetch (length (requests c)) (request_of ("/api/roblox/" +:+ id) c) = Some res ->
  res_ok res = true ->
  JS.truthy (res_json res) = false ->
  getRoblox id c n = (Ok JS.Undefined, sent ("/api/roblox/" +:+ id) gb c, n1).
Proof.
  intros Hm Hrun Hfetch Hok Hbody.
  rewrite (getRoblox_miss _ _ _ Hm). unfold getRoblox_request. rewrite bind_eq.
  rewrite (makeRequest_ok _ _ _ _ _ _ Hrun Hfetch Hok), Hbody. reflexivity.
Qed.

(** X11: the errors of a request that was sent.  Once the global bucket has
    accepted the call, the call is counted and the request logged whatever
    follows.  When [fetch] or [res.json()] rejects, the rejection is thrown.
    When the status is not a success, 429 or 404, an [HttpError] is thrown
    if the body has a truthy [error], with the [status] of that object and
    its [message] (or the default one when it has none); otherwise the
    [Error] wrapping the response is thrown. *)
Theorem request_errors (uri : string) (c : Client) (n : nat) (gb : Bucket) (n1 : nat) :
  run (globalRatelimit c) n = (Ok tt, gb, n1) ->
  (fetch (length (requests c)) (request_of uri c) = None ->
   makeRequest uri c n = (Throw Rejected, sent uri gb c, n1)) /\
  (forall res error,
     fetch (length (requests c)) (request_of uri c) = Some res ->
     res_ok res = false ->
     res_status res <> 429%Z ->
     res_status res <> 404%Z ->
     JS.prop (res_json res) "error" = Some error ->
     (JS.truthy error = false ->
      makeRequest uri c n = (Throw (PlainError res), sent uri gb c, n1)) /\
     (JS.truthy error = true ->
      exists m st,
        JS.prop error "message" = Some m /\
        JS.prop error "status" = Some st /\
        makeRequest uri c n =
        (Throw (HttpError {| message := if JS.truthy m then Given m else FromStatus st;
                             status := st |}),
         sent uri gb c, n1))).
Proof.
  intros Hrun. split.
  - intros Hfetch. exact (makeRequest_no_answer _ _ _ _ _ Hrun Hfetch).
  - intros res error Hfetch Hok H429 H404 Herr.
    assert (Hcommon : forall e,
              (if JS.truthy error then @throw Client JS.Value (new_HttpError error)
               else throw (PlainError res)) (sent uri gb c) n1 = (Throw e, sent uri gb c, n1) ->
              makeRequest uri c n = (Throw e, sent uri gb c, n1)).
    { intros e He. unfold makeRequest. js_eval. rewrite Hrun. js_eval.
      unfold request_of in Hfetch. rewrite Hfetch. js_eval. rewrite Hok.
      apply Z.eqb_neq in H429, H404. rewrite H429, H404, Herr. js_eval.
      destruct (JS.truthy error); exact He. }
    split; intros Ht.
    + apply Hcommon. rewrite Ht. reflexivity.
    + destruct (truthy_has_props error "message" Ht) as [m Hm].
      destruct (truthy_has_props error "status" Ht) as [st Hst].
      exists m, st. split; [exact Hm|]. split; [exact Hst|].
      apply Hcommon. rewrite Ht. unfold new_HttpError, new_HttpErrorFields.
      rewrite Hm, Hst. reflexivity.
Qed.

Lemma getCache_total (id : string) (c : Client) (n : nat) :
  exists v n0, getCache id c n = (Ok v, c, n0).
Proof.
  unfold getCache. js_eval. destruct (cache c !! id) as [ci|]; js_eval.
  - destruct (Qlt_bool _ _); do 2 eexists; reflexivity.
  - do 2 eexists; reflexivity.
Qed.

Lemma makeRequest_keeps_cache (uri : string) : keeps cache (makeRequest uri).
Proof. unfold makeRequest, on_global, do_fetch. keeps_tac. Qed.

(** A lookup that throws has thrown in [makeRequest], or before it. *)
Lemma after_makeRequest_throws (field key : string) (r : Result JS.Value)
    (c1 : Client) (n1 : nat) e c' n' :
  match r with
  | Ok full =>
      (if negb (JS.truthy full) then ret JS.Undefined
       else
         bind (if JS.truthy full then lift (JS.prop full field) else ret full)
           (fun v => bind (setCache key v) (fun _ => ret v))) c1 n1
  | Throw e => (Throw e, c1, n1)
  end = (Throw e, c', n') ->
  c' = c1.
Proof.
  destruct r as [full|e0]; [|congruence].
  destruct (JS.truthy full) eqn:Ht; cbn [negb]; [|discriminate].
  destruct (truthy_has_props full field Ht) as [w ->]. discriminate.
Qed.

(** X12: errors are not cached.  Whatever makes [getRoblox] or [getDiscord]
    throw (a bucket, the remote service, the transport), the cache is left
    as it was, so that the lookup can be made again. *)
Theorem failed_lookup_leaves_cache (id : string) (c : Client) (n : nat) :
  (forall e c' n', getRoblox id c n = (Throw e, c', n') -> cache c' = cache c) /\
  (forall e c' n', getDiscord id c n = (Throw e, c', n') -> cache c' = cache c).
Proof.
  split; intros e c' n'.
  - unfold getRoblox. cbv zeta. rewrite bind_eq.
    destruct (getCache_total ("d-" +:+ id) c n) as (v & n0 & ->).
    destruct (JS.truthy v); [discriminate|].
    unfold getRoblox_request. rewrite bind_eq.
    pose proof (makeRequest_keeps_cache ("/api/roblox/" +:+ id) c n0) as Hk.
    destruct (makeRequest _ c n0) as [[r c1] n1]. cbn [fst snd] in Hk.
    intros H. rewrite <- Hk. f_equal.
    exact (after_makeRequest_throws "robloxId" _ r c1 n1 e c' n' H).
  - unfold getDiscord. cbv zeta. rewrite bind_eq.
    destruct (getCache_total ("r-" +:+ id) c n) as (v & n0 & ->).
    destruct (JS.truthy v); [discriminate|].
    unfold getDiscord_request. rewrite bind_eq. unfold on_reverse, zoom.
    destruct (run (reverseRatelimit c) n0) as [[[[]|e0] rb] n1].
    2:{ intros H. injection H as _ <- _. reflexivity. }
    rewrite bind_eq.
    pose proof (makeRequest_keeps_cache ("/api/reverse/" +:+ id)
                  (set_reverseRatelimit rb c) n1) as Hk.
    destruct (makeRequest _ (set_reverseRatelimit rb c) n1) as [[r c1] n2].
    cbn [fst snd] in Hk. intros H. change (cache c) with (cache (set_reverseRatelimit rb c)).
    rewrite <- Hk. f_equal.
    exact (after_makeRequest_throws "discordId" _ r c1 n2 e c' n' H).
Qed.

(** X13: a lookup sends at most one request.  [getRoblox] leaves the log of
    requests as it is or adds to it the one request to
    [BASE_URL + "/api/roblox/" + id]; [getDiscord] does the same with
    ["/api/reverse/"]. *)
Theorem lookup_sends_at_most_one_request (id : string) (c : Client) (n : nat) :
  (requests (snd (fst (getRoblox id c n))) = requests c \/
   requests (snd (fst (getRoblox id c n))) =
   requests c ++ [request_of ("/api/roblox/" +:+ id) c]) /\
  (requests (snd (fst (getDiscord id c n))) = requests c \/
   requests (snd (fst (getDiscord id c n))) =
   requests c ++ [request_of ("/api/reverse/" +:+ id) c]).
Proof.
  split.
  - unfold getRoblox. cbv zeta. rewrite bind_eq.
    destruct (getCache_total ("d-" +:+ id) c n) as (v & n0 & ->).
    destruct (JS.truthy v); [left; reflexivity|].
    pose proof (getRoblox_request_cases id ("d-" +:+ id) c n0) as H.
    destruct (run (globalRatelimit c) n0) as [[[[]|e] gb] n1].
    + destruct H as (r & c' & n' & -> & Hreq & _). right. exact Hreq.
    + destruct H as [-> _]. left. reflexivity.
  - unfold getDiscord. cbv zeta. rewrite bind_eq.
    destruct (getCache_total ("r-" +:+ id) c n) as (v & n0 & ->).
    destruct (JS.truthy v); [left; reflexivity|].
    pose proof (getDiscord_request_cases id ("r-" +:+ id) c n0) as H.
    destruct (run (reverseRatelimit c) n0) as [[[[]|e] rb] n1].
    + destruct (run (globalRatelimit c) n1) as [[[[]|e] gb] n2].
      * destruct H as (r & c' & n' & -> & Hreq & _). right. exact Hreq.
      * destruct H as [-> _]. left. reflexivity.
    + destruct H as [-> _]. left. reflexivity.
Qed.

(** X14: a 429 answered to a reverse lookup closes the global bucket, not
    the reverse one.  The reverse bucket has only counted the call; the
    global bucket is triggered with the hint, and until the clock reaches
    the time of the [trigger] plus [(retryAfter + limitPeriod) * 1000] a
    forward lookup that misses the cache is rejected locally too. *)
Theorem reverse_429_closes_global_bucket
    (id : string) (c : Client) (n : nat) (rb gb : Bucket) (n1 n2 : nat)
    (res : Response) (error hint : JS.Value) (r : Q) :
  misses c ("r-" +:+ id) n = true ->
  run (reverseRatelimit c) (snd (getCache ("r-" +:+ id) c n)) = (Ok tt, rb, n1) ->
  run (globalRatelimit c) n1 = (Ok tt, gb, n2) ->
  fetch (length (requests c)) (request_of ("/api/reverse/" +:+ id) c) = Some res ->
  res_status res = 429%Z ->
  JS.prop (res_json res) "error" = Some error ->
  JS.prop error "retryAfter" = Some hint ->
  JS.ToNumber (JS.or hint (JS.Num 3000)) = Some r ->
  let c1 := sent ("/api/reverse/" +:+ id) (snd (fst (trigger r gb n2)))
              (set_reverseRatelimit rb c) in
  getDiscord id c n = (Throw (new_RatelimitError error), c1, S n2) /\
  reverseRatelimit c1 = rb /\
  forall id' m,
    (forall i, (m <= i < m + 5)%nat -> misses c ("d-" +:+ id') i = true) ->
    (forall i, (m <= i < m + 5)%nat ->
       Date_now i < Date_now n2 + (r + limitPeriod gb) * 1000) ->
    exists e c2 n3,
      getRoblox id' c1 m = (Throw e, c2, n3) /\
      is_local_ratelimit e = true /\
      requests c2 = requests c1.
Proof.
  intros Hm Hrev Hglob Hfetch Hst Herr Hhint Hnum c1. split; [|split; [reflexivity|]].
  - rewrite (getDiscord_miss _ _ _ Hm). unfold getDiscord_request.
    rewrite bind_eq. unfold on_reverse, zoom. rewrite Hrev. rewrite bind_eq.
    rewrite (makeRequest_429 _ (set_reverseRatelimit rb c) _ gb n2 res error hint r
               Hglob Hfetch Hst Herr Hhint Hnum).
    reflexivity.
  - intros id' m Hmiss Hbefore.
    destruct (call_blocked (CallGetRoblox id') ("d-" +:+ id') c1 m eq_refl)
      as (e & c2 & n3 & Hcall & Hloc & _ & _ & Hreq & _).
    + intros i Hi. rewrite (misses_same_cache c c1) by reflexivity. apply Hmiss, Hi.
    + subst c1. cbn. lia.
    + intros i Hi. specialize (Hbefore i Hi). unfold active. subst c1. cbn. lra.
    + cbn [call] in Hcall. unfold attempt in Hcall.
      destruct (getRoblox id' c1 m) as [[o c2'] n3'].
      injection Hcall as -> -> ->. exists e, c2, n3. repeat split; assumption.
Qed.

(** X15: what the lookups leave alone.  A forward lookup never touches the
    reverse bucket, and neither lookup changes the options: logging, token
    and time to live stay as [setOptions] left them. *)
Theorem lookups_leave_alone (id : string) (c : Client) (n : nat) :
  reverseRatelimit (snd (fst (getRoblox id c n))) = reverseRatelimit c /\
  (useLog (snd (fst (getRoblox id c n))), token (snd (fst (getRoblox id c n))),
   cacheTime (snd (fst (getRoblox id c n)))) = (useLog c, token c, cacheTime c) /\
  (useLog (snd (fst (getDiscord id c n))), token (snd (fst (getDiscord id c n))),
   cacheTime (snd (fst (getDiscord id c n)))) = (useLog c, token c, cacheTime c).
Proof.
  split; [|split].
  - assert (H : keeps reverseRatelimit (getRoblox id)).
    { unfold getRoblox, getRoblox_request, getCache, setCache, makeRequest, on_global, do_fetch.
      keeps_tac. }
    apply H.
  - apply (getRoblox_keeps_options id c n).
  - apply (getDiscord_keeps_options id c n).
Qed.


(** X17: [setOptions] only overrides, it never resets: it cannot switch
    logging off, remove the token or set the time to live to 0; it touches
    neither the buckets, the cache nor the log; and applying the same
    options twice is applying them once. *)
Theorem setOptions_never_resets (opt : Options) (c : Client) :
  (useLog c = true -> useLog (setOptions opt c) = true) /\
  (is_Some (token c) -> is_Some (token (setOptions opt c))) /\
  (~ cacheTime c == 0 -> ~ cacheTime (setOptions opt c) == 0) /\
  (globalRatelimit (setOptions opt c), reverseRatelimit (setOptions opt c),
   cache (setOptions opt c), requests (setOptions opt c))
  = (globalRatelimit c, reverseRatelimit c, cache c, requests c) /\
  setOptions opt (setOptions opt c) = setOptions opt c.
Proof.
  unfold setOptions.
  destruct (opt_useLog opt) as [[|]|], (opt_token opt) as [t|], (opt_cacheTime opt) as [q|];
    cbn [default truthy_string truthy_number orb];
    try destruct (negb (String.eqb t "")); try destruct (negb (Qeq_bool q 0)) eqn:Hq;
    cbn; repeat split; auto;
    try (intros _ H0; apply Qeq_bool_iff in H0; rewrite H0 in Hq; discriminate).
Qed.

(** *** What every run preserves *)

Lemma steps_ret {St A} (R : St -> St -> Prop) (a : A) :
  (forall s, R s s) -> steps R (ret a).
Proof. intros Hrefl s n. apply Hrefl. Qed.

Lemma steps_throw {St A} (R : St -> St -> Prop) (e : Exn) :
  (forall s, R s s) -> steps R (@throw St A e).
Proof. intros Hrefl s n. apply Hrefl. Qed.

Lemma steps_get {St} (R : St -> St -> Prop) :
  (forall s, R s s) -> steps R get.
Proof. intros Hrefl s n. apply Hrefl. Qed.

Lemma steps_lift {St A} (R : St -> St -> Prop) (o : option A) :
  (forall s, R s s) -> steps R (lift o).
Proof. intros Hrefl s n. destruct o; apply Hrefl. Qed.

Lemma steps_bind {St A B} (R : St -> St -> Prop) (m : M St A) (k : A -> M St B) :
  (forall x y z, R x y -> R y z -> R x z) ->
  steps R m -> (forall a, steps R (k a)) -> steps R (bind m k).
Proof.
  intros Htrans Hm Hk s n. unfold bind. specialize (Hm s n).
  destruct (m s n) as [[[a|e] s'] n']; cbn [fst snd] in *.
  - eapply Htrans; [exact Hm | apply Hk].
  - exact Hm.
Qed.

Lemma steps_attempt {St A} (R : St -> St -> Prop) (m : M St A) :
  steps R m -> steps R (attempt m).
Proof.
  intros Hm s n. unfold attempt. specialize (Hm s n).
  destruct (m s n) as [[r s'] n']. exact Hm.
Qed.

(** Proves [steps R m] by following the structure of [m]; [leaf] proves it
    for the operations that change the state. *)
Ltac steps_tac Hrefl Htrans leaf :=
  repeat first
    [ leaf
    | apply steps_ret; exact Hrefl
    | apply steps_throw; exact Hrefl
    | apply steps_get; exact Hrefl
    | apply steps_lift; exact Hrefl
    | apply steps_attempt
    | apply steps_bind; [exact Htrans | | intros]
    | match goal with
      | |- steps _ (if ?b then _ else _) => destruct b
      | |- steps _ (match ?x with _ => _ end) => destruct x
      | |- steps _ (let _ := _ in _) => cbv zeta
      end ].

Lemma steps_lookups (R : Client -> Client -> Prop) :
  (forall s, R s s) ->
  (forall x y z, R x y -> R y z -> R x z) ->
  (forall id, steps R (getCache id)) ->
  (forall id v, steps R (setCache id v)) ->
  steps R (on_global run) ->
  steps R (on_reverse run) ->
  (forall r, steps R (on_global (trigger r))) ->
  (forall req, steps R (do_fetch req)) ->
  forall id, steps R (getRoblox id) /\ steps R (getDiscord id).
Proof.
  intros Hrefl Htrans Hget Hset Hglob Hrev Htrig Hfetch id.
  split.
  - unfold getRoblox, getRoblox_request, makeRequest.
    steps_tac Hrefl Htrans ltac:(first [apply Hget | apply Hset | apply Hglob | apply Hrev
                                       | apply Htrig | apply Hfetch]).
  - unfold getDiscord, getDiscord_request, makeRequest.
    steps_tac Hrefl Htrans ltac:(first [apply Hget | apply Hset | apply Hglob | apply Hrev
                                       | apply Htrig | apply Hfetch]).
Qed.

Lemma steps_calls (R : Client -> Client -> Prop) :
  (forall s, R s s) ->
  (forall x y z, R x y -> R y z -> R x z) ->
  (forall id, steps R (getRoblox id) /\ steps R (getDiscord id)) ->
  (forall opt s, R s (setOptions opt s)) ->
  forall ops, steps R (calls ops).
Proof.
  intros Hrefl Htrans Hlook Hopt ops. induction ops as [|op rest IH]; cbn [calls].
  - apply steps_ret, Hrefl.
  - apply steps_bind; [exact Htrans | | intros r].
    + destruct op as [opt|id|id]; cbn [call].
      * apply steps_bind; [exact Htrans | | intros; apply steps_ret, Hrefl].
        intros s n. apply Hopt.
      * apply steps_attempt, Hlook.
      * apply steps_attempt, Hlook.
    + apply steps_bind; [exact Htrans | exact IH | intros; apply steps_ret, Hrefl].
Qed.

Lemma getCache_same (id : string) (c : Client) (n : nat) :
  snd (fst (getCache id c n)) = c.
Proof. destruct (getCache_total id c n) as (v & n0 & ->). reflexivity. Qed.

Lemma same_policy_run (p b : Bucket) (n : nat) :
  (1 <= limitNo p)%Z -> same_policy p b -> same_policy p (snd (fst (run b n))).
Proof.
  intros Hlim (Hl & Hp & Hw). destruct (run_params b n) as [Hl' Hp'].
  repeat split; try congruence; apply run_within_limit; try assumption; lia.
Qed.

Lemma same_policy_trigger (p b : Bucket) (r : Q) (n : nat) :
  (0 <= limitNo p)%Z -> same_policy p b -> same_policy p (snd (fst (trigger r b n))).
Proof.
  intros Hlim (Hl & Hp & Hw). rewrite trigger_eq. unfold same_policy, within_limit. cbn.
  repeat split; try assumption; lia.
Qed.

(** X18: the module stays well formed.  Whatever calls are made, in any
    order and whatever the remote service answers, the global bucket keeps
    its policy of 60 calls per 60 seconds and the reverse bucket its policy
    of 30 per 60, their counters stay between 0 and the limit, the time to
    live is never 0 and the token is never the empty string. *)
Theorem calls_keep_module_well_formed (ops : list Call) (c : Client) (n : nat) :
  well_formed c -> well_formed (snd (fst (calls ops c n))).
Proof.
  revert c n.
  change (steps (fun c c' => well_formed c -> well_formed c') (calls ops)).
  apply steps_calls; [auto | auto | |].
  - apply steps_lookups; [auto | auto | | | | | |].
    + intros id c n. rewrite getCache_same. auto.
    + intros id v c n. rewrite setCache_eq. auto.
    + intros c n (Hg & Hr & Ht & Hk). unfold on_global, zoom.
      pose proof (same_policy_run (makeRatelimit 60 60) (globalRatelimit c) n) as H.
      destruct (run (globalRatelimit c) n) as [[o b'] n'].
      split; [apply H; [cbn; lia | exact Hg] | split; [exact Hr | split; [exact Ht | exact Hk]]].
    + intros c n (Hg & Hr & Ht & Hk). unfold on_reverse, zoom.
      pose proof (same_policy_run (makeRatelimit 30 60) (reverseRatelimit c) n) as H.
      destruct (run (reverseRatelimit c) n) as [[o b'] n'].
      split; [exact Hg | split; [apply H; [cbn; lia | exact Hr] | split; [exact Ht | exact Hk]]].
    + intros r c n (Hg & Hr & Ht & Hk). unfold on_global, zoom.
      pose proof (same_policy_trigger (makeRatelimit 60 60) (globalRatelimit c) r n) as H.
      destruct (trigger r (globalRatelimit c) n) as [[o b'] n'].
      split; [apply H; [cbn; lia | exact Hg] | split; [exact Hr | split; [exact Ht | exact Hk]]].
    + intros req c n. unfold do_fetch. js_eval.
      destruct (fetch _ _); auto.
  - intros opt c (Hg & Hr & Ht & Hk). unfold setOptions.
    destruct (default false (opt_useLog opt));
      destruct (opt_token opt) as [t|]; cbn [truthy_string];
      try destruct (String.eqb_spec t ""); cbn [negb];
      destruct (opt_cacheTime opt) as [q|]; cbn [truthy_number default];
      try destruct (Qeq_bool q 0) eqn:Hq; cbn [negb];
      (split; [exact Hg|]; split; [exact Hr|]; cbn; split;
       [ first [exact Ht | intros H0; apply Qeq_bool_iff in H0; congruence]
       | first [exact Hk | congruence] ]).
Qed.

(** X19: nothing is ever evicted.  Whatever calls are made, every key the
    cache had is still in the cache afterwards (an expired entry stays until
    it is overwritten), and the log of the requests sent is only
    extended. *)
Theorem calls_only_grow (ops : list Call) (c : Client) (n : nat) :
  grown c (snd (fst (calls ops c n))).
Proof.
  revert c n. change (steps grown (calls ops)).
  assert (Hrefl : forall c, grown c c) by (intros c; split; reflexivity).
  assert (Htrans : forall x y z, grown x y -> grown y z -> grown x z).
  { intros x y z [H1 H2] [H3 H4]. split; etrans; eassumption. }
  apply steps_calls; [exact Hrefl | exact Htrans | |].
  - apply steps_lookups; [exact Hrefl | exact Htrans | | | | | |].
    + intros id c n. rewrite getCache_same. apply Hrefl.
    + intros id v c n. rewrite setCache_eq. split; cbn; [|reflexivity].
      rewrite dom_insert_L. set_solver.
    + intros c n. unfold on_global, zoom.
      destruct (run (globalRatelimit c) n) as [[o b'] n']. split; reflexivity.
    + intros c n. unfold on_reverse, zoom.
      destruct (run (reverseRatelimit c) n) as [[o b'] n']. split; reflexivity.
    + intros r c n. unfold on_global, zoom.
      destruct (trigger r (globalRatelimit c) n) as [[o b'] n']. split; reflexivity.
    + intros req c n. unfold do_fetch. js_eval.
      destruct (fetch _ _); (split; cbn; [reflexivity | apply prefix_app_r; reflexivity]).
  - intros opt c. unfold setOptions.
    destruct (default false (opt_useLog opt)), (truthy_string (opt_token opt)),
      (truthy_number (opt_cacheTime opt)); split; reflexivity.
Qed.

End Process.

(** ** The properties on concrete runs *)

Lemma run_expired_window_resets_witness :
  limitPeriod (full_bucket 1000) * 1000 <= steady 61000 0%nat - since (full_bucket 1000) /\
  exists b',
    run (steady 61000) (full_bucket 1000) 0%nat = (Ok tt, b', 2%nat) /\
    requestsMade b' = 1%Z /\
    since b' = steady 61000 1%nat /\
    limitNo b' = 60%Z /\
    limitPeriod b' = 60.
Proof.
  split.
  - vm_compute. discriminate.
  - apply (run_expired_window_resets (steady 61000) (full_bucket 1000) 0%nat).
    vm_compute. discriminate.
Defined.

Lemma run_failure_payload_witness :
  active (full_bucket 1000) (steady 31000 0%nat) /\
  (requestsMade (full_bucket 1000) >= limitNo (full_bucket 1000))%Z /\
  run (steady 31000) (full_bucket 1000) 0%nat =
  (Throw (RatelimitError
            {| message := Given (JS.Str "Too many requests"); status := JS.Num 429 |}
            (JS.Num (((1000 + (60 * 1000)) - 31000) / 1000 + 5))
            (JS.Bool true)),
   full_bucket 1000, 2%nat).
Proof.
  assert (H1 : active (full_bucket 1000) (steady 31000 0%nat)) by (vm_compute; reflexivity).
  assert (H2 : (requestsMade (full_bucket 1000) >= limitNo (full_bucket 1000))%Z)
    by (vm_compute; discriminate).
  split; [exact H1|]. split; [exact H2|].
  exact (proj1 (run_failure_payload (steady 31000) (full_bucket 1000) 0%nat) (conj H1 H2)).
Defined.

(** [trigger 10] at 100 s on a bucket of period 60 s: the calls made at
    100 s and at 169.999 s are rejected, the call made at 170 s is
    accepted. *)
Lemma trigger_closes_bucket_witness :
  (forall i, (i < 2)%nat ->
     trigger_clock (1 + 2 * i)%nat < trigger_clock 0%nat + (10 + 60) * 1000) /\
  trigger_clock 0%nat + (10 + 60) * 1000 <= trigger_clock (1 + 2 * 2)%nat /\
  exists rejected,
    fst (fst (attempts trigger_clock (2 + 1)
                (snd (fst (trigger trigger_clock 10 (makeRatelimit 60 60) 0%nat))) 1%nat))
    = Ok (rejected ++ [(Ok tt, 1%Z)]) /\
    length rejected = 2%nat /\
    Forall (fun o => failed_locally (fst o) = true /\ snd o = 60%Z) rejected.
Proof.
  assert (H1 : forall i, (i < 2)%nat ->
                 trigger_clock (1 + 2 * i)%nat < trigger_clock 0%nat + (10 + 60) * 1000).
  { intros [|[|i]] Hi; [vm_compute; reflexivity | vm_compute; reflexivity | lia]. }
  assert (H2 : trigger_clock 0%nat + (10 + 60) * 1000 <= trigger_clock (1 + 2 * 2)%nat)
    by (vm_compute; discriminate).
  split; [exact H1|]. split; [exact H2|].
  exact (trigger_closes_bucket trigger_clock (makeRatelimit 60 60) 10 0%nat 1%nat 2%nat H1 H2).
Defined.

(** A bucket of 3 calls per 60 s, first used at 100 s: three calls are
    accepted, the fourth is rejected. *)
Lemma run_quota_of_window_witness :
  limitNo (makeRatelimit 3 60) = Z.of_nat 3 /\
  (~ active (makeRatelimit 3 60) (steady 100000 0%nat) \/
   requestsMade (makeRatelimit 3 60) = 0%Z) /\
  (forall i, (i <= 2)%nat ->
     active (snd (fst (run (steady 100000) (makeRatelimit 3 60) 0%nat)))
            (steady 100000 (snd (run (steady 100000) (makeRatelimit 3 60) 0%nat) + i)%nat)) /\
  exists e,
    fst (fst (attempts (steady 100000) (3 + 1) (makeRatelimit 3 60) 0%nat)) =
      Ok ([(Ok tt, 1%Z); (Ok tt, 2%Z); (Ok tt, 3%Z)] ++ [(Throw e, 3%Z)]) /\
    is_local_ratelimit e = true.
Proof.
  assert (H1 : limitNo (makeRatelimit 3 60) = Z.of_nat 3) by reflexivity.
  assert (H2 : ~ active (makeRatelimit 3 60) (steady 100000 0%nat) \/
               requestsMade (makeRatelimit 3 60) = 0%Z)
    by (right; reflexivity).
  assert (H3 : forall i, (i <= 2)%nat ->
                 active (snd (fst (run (steady 100000) (makeRatelimit 3 60) 0%nat)))
                        (steady 100000
                           (snd (run (steady 100000) (makeRatelimit 3 60) 0%nat) + i)%nat)).
  { intros i _. vm_compute. reflexivity. }
  split; [exact H1|]. split; [exact H2|]. split; [exact H3|].
  exact (run_quota_of_window (steady 100000) (makeRatelimit 3 60) 0%nat 2%nat H1 H2 H3).
Defined.

(** A value cached at 100 s with the default time to live of 60 s is
    returned at once and at 159.999 s, and is gone at 160 s. *)
Lemma cache_entry_expires_witness :
  0 < cacheTime init /\
  cache_clock 1%nat == cache_clock 0%nat /\
  cache_clock 2%nat < cache_clock 0%nat + cacheTime init * 1000 /\
  cache_clock 0%nat + cacheTime init * 1000 <= cache_clock 3%nat /\
  bind (setCache cache_clock "d-1" (JS.Num 42)) (fun _ => getCache cache_clock "d-1") init 0%nat
    = (Ok (JS.Num 42), snd (fst (setCache cache_clock "d-1" (JS.Num 42) init 0%nat)), 2%nat) /\
  getCache cache_clock "d-1" (snd (fst (setCache cache_clock "d-1" (JS.Num 42) init 0%nat))) 2%nat
    = (Ok (JS.Num 42), snd (fst (setCache cache_clock "d-1" (JS.Num 42) init 0%nat)), 3%nat) /\
  getCache cache_clock "d-1" (snd (fst (setCache cache_clock "d-1" (JS.Num 42) init 0%nat))) 3%nat
    = (Ok JS.Undefined, snd (fst (setCache cache_clock "d-1" (JS.Num 42) init 0%nat)), 4%nat) /\
  cache (snd (fst (setCache cache_clock "d-1" (JS.Num 42) init 0%nat))) !! "d-1"
    = Some {| item := JS.Num 42; expires := cache_clock 0%nat + cacheTime init * 1000 |}.
Proof.
  assert (H1 : 0 < cacheTime init) by (vm_compute; reflexivity).
  assert (H2 : cache_clock 1%nat == cache_clock 0%nat) by (vm_compute; reflexivity).
  assert (H3 : cache_clock 2%nat < cache_clock 0%nat + cacheTime init * 1000)
    by (vm_compute; reflexivity).
  assert (H4 : cache_clock 0%nat + cacheTime init * 1000 <= cache_clock 3%nat)
    by (vm_compute; discriminate).
  destruct (cache_entry_expires cache_clock "d-1" (JS.Num 42) init 0%nat)
    as (Hstored & Hnow & Hlater).
  split; [exact H1|]. split; [exact H2|]. split; [exact H3|]. split; [exact H4|].
  split; [exact (Hnow H1 H2)|].
  split; [exact (proj1 (Hlater 2%nat) H3)|].
  split; [exact (proj2 (Hlater 3%nat) H4)|].
  exact Hstored.
Defined.

(** With the global bucket full and the reverse bucket unused, a reverse
    lookup runs the reverse bucket, which counts it, and is rejected by the
    global bucket. *)
Lemma getDiscord_runs_both_buckets_witness :
  misses (steady 100000) busy ("r-" +:+ "2") 0%nat = true /\
  getDiscord (steady 100000) (answers (remote_error 404 [])) "2" busy 0%nat =
  (Throw (RateLimitExceeded (full_bucket 100000) 100000),
   set_globalRatelimit (full_bucket 100000)
     (set_reverseRatelimit
        {| limitNo := 30; limitPeriod := 60; since := 100000; requestsMade := 1 |} busy),
   4%nat) /\
  is_local_ratelimit (RateLimitExceeded (full_bucket 100000) 100000) = true.
Proof.
  assert (H : misses (steady 100000) busy ("r-" +:+ "2") 0%nat = true) by reflexivity.
  split; [exact H|].
  exact (proj1 (getDiscord_runs_both_buckets (steady 100000) (answers (remote_error 404 [])))
           "2" busy 0%nat H).
Defined.

(** Sixty forward lookups made at 100 s fill the global bucket; the reverse
    lookup that follows is rejected locally although it is the first call
    the reverse bucket counts, and no request is sent for it. *)
Example sixty_forward_lookups_block_reverse :
  let outcome := calls (steady 100000) (answers (remote_error 404 []))
                   (repeat (CallGetRoblox "1") 60 ++ [CallGetDiscord "2"]) init 0%nat in
  match fst (fst outcome) with
  | Ok rs => map failed_locally rs = repeat false 60 ++ [true]
  | Throw _ => False
  end /\
  globalRatelimit (snd (fst outcome)) = full_bucket 100000 /\
  requestsMade (reverseRatelimit (snd (fst outcome))) = 1%Z /\
  length (requests (snd (fst outcome))) = 60%nat.
Proof. vm_compute. repeat split. Qed.

(** [undefined] is cached until 200 s under both keys of the id 1; at 100 s
    both lookups of that id send a request all the same. *)
Lemma falsy_cached_item_is_a_miss_witness :
  JS.truthy (item {| item := JS.Undefined; expires := 200000 |}) = false /\
  steady 100000 0%nat < expires {| item := JS.Undefined; expires := 200000 |} /\
  cache nothing_cached !! ("d-" +:+ "1") = Some {| item := JS.Undefined; expires := 200000 |} /\
  cache nothing_cached !! ("r-" +:+ "1") = Some {| item := JS.Undefined; expires := 200000 |} /\
  requests (snd (fst (getRoblox (steady 100000) (answers (remote_error 404 [])) "1"
                        nothing_cached 0%nat)))
  = [request_of ("/api/roblox/" +:+ "1") nothing_cached] /\
  requests (snd (fst (getDiscord (steady 100000) (answers (remote_error 404 [])) "1"
                        nothing_cached 0%nat)))
  = [request_of ("/api/reverse/" +:+ "1") nothing_cached].
Proof.
  assert (H1 : JS.truthy (item {| item := JS.Undefined; expires := 200000 |}) = false)
    by reflexivity.
  assert (H2 : steady 100000 0%nat < expires {| item := JS.Undefined; expires := 200000 |})
    by (vm_compute; reflexivity).
  assert (H3 : cache nothing_cached !! ("d-" +:+ "1")
               = Some {| item := JS.Undefined; expires := 200000 |})
    by (vm_compute; reflexivity).
  assert (H4 : cache nothing_cached !! ("r-" +:+ "1")
               = Some {| item := JS.Undefined; expires := 200000 |})
    by (vm_compute; reflexivity).
  destruct (falsy_cached_item_is_a_miss (steady 100000) (answers (remote_error 404 []))
              "1" nothing_cached 0%nat _ H1 H2) as [Hforward Hreverse].
  split; [exact H1|]. split; [exact H2|]. split; [exact H3|]. split; [exact H4|].
  split; [exact (proj2 (Hforward H3)) | exact (proj2 (Hreverse H4))].
Defined.

(** C1 fails on the code: the service answers 404 to the lookup of the id
    123.  The first lookup returns [undefined] and leaves the cache without
    an entry for the id; the second one, made at the same instant, well
    within the time to live, sends a second request. *)
Lemma not_found_cached_counterexample :
  fst (fst (getRoblox (steady 100000) (answers (remote_error 404 [])) "123" init 0%nat))
  = Ok JS.Undefined /\
  cache (snd (fst (getRoblox (steady 100000) (answers (remote_error 404 [])) "123" init 0%nat)))
    !! ("d-" +:+ "123") = None /\
  fst (fst (calls (steady 100000) (answers (remote_error 404 []))
              [CallGetRoblox "123"; CallGetRoblox "123"] init 0%nat))
  = Ok [Ok JS.Undefined; Ok JS.Undefined] /\
  requests (snd (fst (calls (steady 100000) (answers (remote_error 404 []))
                        [CallGetRoblox "123"; CallGetRoblox "123"] init 0%nat)))
  = [request_of ("/api/roblox/" +:+ "123") init; request_of ("/api/roblox/" +:+ "123") init].
Proof. vm_compute. repeat split. Qed.

Lemma not_found_is_not_cached_witness :
  misses (steady 100000) init ("d-" +:+ "123") 0%nat = true /\
  run (steady 100000) (globalRatelimit init) 0%nat
  = (Ok tt, {| limitNo := 60; limitPeriod := 60; since := 100000; requestsMade := 1 |}, 2%nat) /\
  res_status (remote_error 404 []) = 404%Z /\
  getRoblox (steady 100000) (answers (remote_error 404 [])) "123" init 0%nat
  = (Ok JS.Undefined,
     sent ("/api/roblox/" +:+ "123")
       {| limitNo := 60; limitPeriod := 60; since := 100000; requestsMade := 1 |} init,
     2%nat) /\
  requests (snd (fst (getRoblox (steady 100000) (answers (remote_error 404 [])) "123"
                        (sent ("/api/roblox/" +:+ "123")
                           {| limitNo := 60; limitPeriod := 60; since := 100000;
                              requestsMade := 1 |} init)
                        2%nat)))
  = [request_of ("/api/roblox/" +:+ "123") init; request_of ("/api/roblox/" +:+ "123") init].
Proof.
  assert (H1 : misses (steady 100000) init ("d-" +:+ "123") 0%nat = true) by reflexivity.
  assert (H2 : run (steady 100000) (globalRatelimit init)
                 (snd (getCache (steady 100000) ("d-" +:+ "123") init 0%nat))
               = (Ok tt, {| limitNo := 60; limitPeriod := 60; since := 100000;
                            requestsMade := 1 |}, 2%nat))
    by reflexivity.
  assert (H3 : answers (remote_error 404 []) (length (requests init))
                 (request_of ("/api/roblox/" +:+ "123") init)
               = Some (remote_error 404 [])) by reflexivity.
  assert (H4 : res_status (remote_error 404 []) = 404%Z) by reflexivity.
  destruct (not_found_is_not_cached (steady 100000) (answers (remote_error 404 []))
              "123" init 0%nat _ _ _ H1 H2 H3 H4) as (Hfirst & _ & Hsecond).
  split; [exact H1|]. split; [exact H2|]. split; [exact H4|]. split; [exact Hfirst|].
  exact (Hsecond 2%nat (Qle_refl _)).
Defined.

(** C4 fails on the code in four ways.
    - The service answers 429 with the hint [retryAfter: 0]: [trigger] is
      called with 3000, not with the hint, and the lookup made 61 s later,
      after [retryAfter + limitPeriod] seconds, is still rejected locally.
    - A lookup made right after the 429 whose id is in the cache does not
      fail: it returns the cached value.
    - The remote [error] object sets [isLocal]: the error thrown for the 429
      is marked as local.
    - The body of the 429 has no [error] object: a [TypeError] is thrown,
      the bucket is not triggered and the next lookup sends a request. *)
Lemma remote_rate_limit_counterexample :
  (match calls minute_clock (answers (remote_error 429 [("retryAfter", JS.Num 0)]))
           [CallGetRoblox "123"; CallGetRoblox "123"] init 0%nat with
   | (Ok rs, c, _) =>
       map failed_locally rs = [false; true] /\
       since (globalRatelimit c) == minute_clock 2%nat + 3000 * 1000 /\
       length (requests c) = 1%nat
   | _ => False
   end) /\
  fst (fst (calls (steady 100000) (answers (remote_error 429 [("retryAfter", JS.Num 5)]))
              [CallGetRoblox "123"; CallGetRoblox "7"] seven_cached 0%nat))
  = Ok [Throw (new_RatelimitError
                 (JS.Obj [("status", JS.Num 429); ("retryAfter", JS.Num 5)]));
        Ok (JS.Num 7)] /\
  fst (fst (getRoblox (steady 100000)
              (answers (remote_error 429 [("retryAfter", JS.Num 5); ("isLocal", JS.Bool true)]))
              "123" init 0%nat))
  = Throw (RatelimitError {| message := FromStatus (JS.Num 429); status := JS.Num 429 |}
             (JS.Num 5) (JS.Bool true)) /\
  (match calls (steady 100000) (answers {| res_status := 429; res_json := JS.Obj [] |})
           [CallGetRoblox "123"; CallGetRoblox "123"] init 0%nat with
   | (Ok rs, c, _) =>
       rs = [Throw TypeError; Throw TypeError] /\
       requestsMade (globalRatelimit c) = 2%Z /\
       length (requests c) = 2%nat
   | _ => False
   end).
Proof. vm_compute. repeat split; discriminate. Qed.

(** The service answers 429 with the hint [retryAfter: 5] to a request made
    at 100 s: the lookups made at 100 s are rejected locally, the one made
    at 165 s sends a request. *)
Lemma remote_rate_limit_closes_global_bucket_witness :
  run cooldown_clock (globalRatelimit init) 0%nat
  = (Ok tt, {| limitNo := 60; limitPeriod := 60; since := 100000; requestsMade := 1 |}, 2%nat) /\
  res_status (remote_error 429 [("retryAfter", JS.Num 5)]) = 429%Z /\
  JS.prop (res_json (remote_error 429 [("retryAfter", JS.Num 5)])) "error"
  = Some (JS.Obj [("status", JS.Num 429); ("retryAfter", JS.Num 5)]) /\
  JS.prop (JS.Obj [("status", JS.Num 429); ("retryAfter", JS.Num 5)]) "retryAfter"
  = Some (JS.Num 5) /\
  JS.ToNumber (JS.or (JS.Num 5) (JS.Num 3000)) = Some 5 /\
  fst (fst (makeRequest cooldown_clock (answers (remote_error 429 [("retryAfter", JS.Num 5)]))
              "/api/roblox/123" init 0%nat))
  = Throw (RatelimitError {| message := FromStatus (JS.Num 429); status := JS.Num 429 |}
             (JS.Num 5) (JS.Bool false)) /\
  (exists rs c2 n2,
     calls cooldown_clock (answers (remote_error 429 [("retryAfter", JS.Num 5)]))
       [CallGetRoblox "123"; CallGetDiscord "9"]
       (snd (fst (makeRequest cooldown_clock
                    (answers (remote_error 429 [("retryAfter", JS.Num 5)]))
                    "/api/roblox/123" init 0%nat)))
       3%nat
     = (Ok rs, c2, n2) /\
     List.Forall (fun o => failed_locally o = true) rs /\
     length rs = 2%nat /\
     length (requests c2) = 1%nat) /\
  length (requests (snd (fst (getRoblox cooldown_clock
                                (answers (remote_error 429 [("retryAfter", JS.Num 5)])) "123"
                                (snd (fst (makeRequest cooldown_clock
                                             (answers (remote_error 429
                                                         [("retryAfter", JS.Num 5)]))
                                             "/api/roblox/123" init 0%nat)))
                                13%nat))))
  = 2%nat.
Proof.
  set (clock := cooldown_clock).
  set (res := remote_error 429 [("retryAfter", JS.Num 5)]).
  set (error := JS.Obj [("status", JS.Num 429); ("retryAfter", JS.Num 5)]).
  set (gb := {| limitNo := 60; limitPeriod := 60; since := 100000; requestsMade := 1 |}).
  assert (H1 : run clock (globalRatelimit init) 0%nat = (Ok tt, gb, 2%nat)) by reflexivity.
  assert (H2 : answers res (length (requests init)) (request_of "/api/roblox/123" init)
               = Some res) by reflexivity.
  assert (H3 : res_status res = 429%Z) by reflexivity.
  assert (H4 : JS.prop (res_json res) "error" = Some error) by reflexivity.
  assert (H5 : JS.prop error "retryAfter" = Some (JS.Num 5)) by reflexivity.
  assert (H6 : JS.ToNumber (JS.or (JS.Num 5) (JS.Num 3000)) = Some 5) by reflexivity.
  destruct (remote_rate_limit_closes_global_bucket clock (answers res)
              "/api/roblox/123" init 0%nat gb 2%nat res error (JS.Num 5) 5 H1 H2 H3 H4 H5 H6)
    as (Hthrow & _ & _ & _ & Hblocked & Hreopen).
  split; [exact H1|]. split; [exact H3|]. split; [exact H4|]. split; [exact H5|].
  split; [exact H6|]. rewrite Hthrow. cbn [fst snd].
  split; [reflexivity|]. split.
  - destruct (Hblocked [CallGetRoblox "123"; CallGetDiscord "9"] 3%nat)
      as (rs & c2 & n2 & Hcalls & Hrs & Hlen & Hreq & _).
    + intros i Hi. cbn [length] in Hi.
      do 3 (destruct i as [|i]; [lia|]).
      do 10 (destruct i as [|i]; [vm_compute; reflexivity|]). lia.
    + repeat constructor; eexists; (split; [reflexivity | intros; reflexivity]).
    + exists rs, c2, n2. split; [exact Hcalls|]. split; [exact Hrs|]. split; [exact Hlen|].
      rewrite Hreq. reflexivity.
  - rewrite (Hreopen _ "123" 13%nat eq_refl); [reflexivity | reflexivity |].
    vm_compute. discriminate.
Defined.

(** The values the cache guard [if (cachedItem)] lets through. *)
Example falsy_values :
  map JS.truthy [JS.Undefined; JS.Null; JS.Bool false; JS.Num 0; JS.Str ""]
  = [false; false; false; false; false] /\
  map JS.truthy [JS.Bool true; JS.Num 42; JS.Str "42"; JS.Obj []]
  = [true; true; true; true].
Proof. split; reflexivity. Qed.

(** A value that was found at 100 s is cached: the second lookup, made at
    130 s, returns it and sends nothing; the third, made at 160 s when the
    entry has expired, sends a second request. *)
Example found_is_cached :
  let service := answers {| res_status := 200; res_json := JS.Obj [("robloxId", JS.Num 42)] |} in
  let outcome := calls lookup_clock service
                   [CallGetRoblox "5"; CallGetRoblox "5"; CallGetRoblox "5"] init 0%nat in
  fst (fst outcome) = Ok [Ok (JS.Num 42); Ok (JS.Num 42); Ok (JS.Num 42)] /\
  length (requests (snd (fst (calls lookup_clock service
                                [CallGetRoblox "5"; CallGetRoblox "5"] init 0%nat)))) = 1%nat /\
  length (requests (snd (fst outcome))) = 2%nat.
Proof. vm_compute. repeat split. Qed.

(** The request sent before a token is configured has no authorization
    value; the one sent after [setOptions({token: "secret"})] carries the
    token. *)
Example authorization_header :
  requests (snd (fst (calls (steady 100000) (answers (remote_error 404 []))
                        [CallGetRoblox "1";
                         CallSetOptions {| opt_useLog := None; opt_token := Some "secret";
                                           opt_cacheTime := None |};
                         CallGetRoblox "1"]
                        init 0%nat)))
  = [ {| url := "https://verify.nezto.re/api/roblox/1"; authorization := None |};
      {| url := "https://verify.nezto.re/api/roblox/1"; authorization := Some "secret" |} ].
Proof. vm_compute. reflexivity. Qed.

(** ** The further properties on concrete runs *)

Lemma bucket_calls_keep_policy_witness :
  (1 <= limitNo (makeRatelimit 3 60))%Z /\
  within_limit (makeRatelimit 3 60) /\
  same_policy (makeRatelimit 3 60)
    (snd (fst (bucket_calls (steady 100000) [CallRun; CallTrigger 10; CallRun; CallRun]
                 (makeRatelimit 3 60) 0%nat))).
Proof.
  assert (H1 : (1 <= limitNo (makeRatelimit 3 60))%Z) by (cbn; lia).
  assert (H2 : within_limit (makeRatelimit 3 60)) by (unfold within_limit; cbn; lia).
  split; [exact H1|]. split; [exact H2|].
  exact (bucket_calls_keep_policy (steady 100000) [CallRun; CallTrigger 10; CallRun; CallRun]
           (makeRatelimit 3 60) 0%nat H1 H2).
Defined.

(** A call rejected at 31 s with a hint of 35 s: the call made at 61 s, 30 s
    later, succeeds. *)
Lemma retry_after_is_enough_witness :
  run retry_clock (full_bucket 1000) 0%nat
  = (Throw (RatelimitError
              {| message := Given (JS.Str "Too many requests"); status := JS.Num 429 |}
              (JS.Num (((1000 + (60 * 1000)) - 31000) / 1000 + 5)) (JS.Bool true)),
     full_bucket 1000, 2%nat) /\
  retry_clock 1%nat + ((((1000 + (60 * 1000)) - 31000) / 1000 + 5) - 5) * 1000
    <= retry_clock 2%nat /\
  run retry_clock (full_bucket 1000) 2%nat
  = (Ok tt, set_requestsMade 1 (set_since (retry_clock 3%nat) (full_bucket 1000)), 4%nat).
Proof.
  assert (H1 : run retry_clock (full_bucket 1000) 0%nat
               = (Throw (RatelimitError
                           {| message := Given (JS.Str "Too many requests");
                              status := JS.Num 429 |}
                           (JS.Num (((1000 + (60 * 1000)) - 31000) / 1000 + 5)) (JS.Bool true)),
                  full_bucket 1000, 2%nat)) by reflexivity.
  assert (H2 : retry_clock 1%nat + ((((1000 + (60 * 1000)) - 31000) / 1000 + 5) - 5) * 1000
               <= retry_clock 2%nat) by (vm_compute; discriminate).
  split; [exact H1|]. split; [exact H2|].
  exact (retry_after_is_enough retry_clock (full_bucket 1000) 0%nat 2%nat _ _ _ _ _ H1 H2).
Defined.

(** A bucket of limit 0 first used at 100 s: the first call is accepted,
    the next two are rejected. *)
Lemma nonpositive_limit_admits_one_call_per_window_witness :
  (limitNo (makeRatelimit 0 60) <= 0)%Z /\
  ~ active (makeRatelimit 0 60) (steady 100000 0%nat) /\
  (forall i, (i < 2)%nat ->
     steady 100000 (2 + 2 * i)%nat - steady 100000 1%nat
     < limitPeriod (makeRatelimit 0 60) * 1000) /\
  exists rejected,
    fst (fst (attempts (steady 100000) (1 + 2) (makeRatelimit 0 60) 0%nat))
    = Ok ((Ok tt, 1%Z) :: rejected) /\
    length rejected = 2%nat /\
    Forall (fun o => failed_locally (fst o) = true /\ snd o = 1%Z) rejected.
Proof.
  assert (H1 : (limitNo (makeRatelimit 0 60) <= 0)%Z) by (cbn; lia).
  assert (H2 : ~ active (makeRatelimit 0 60) (steady 100000 0%nat))
    by (intros H; vm_compute in H; discriminate).
  assert (H3 : forall i, (i < 2)%nat ->
                 steady 100000 (2 + 2 * i)%nat - steady 100000 1%nat
                 < limitPeriod (makeRatelimit 0 60) * 1000)
    by (intros i _; vm_compute; reflexivity).
  split; [exact H1|]. split; [exact H2|]. split; [exact H3|].
  exact (nonpositive_limit_admits_one_call_per_window (steady 100000) (makeRatelimit 0 60)
           0%nat 2%nat H1 H2 H3).
Defined.

(** A bucket of 3 calls per 60 s whose window ends at 160 s: three calls at
    159.999 s and three calls at 160 s are all accepted. *)
Lemma burst_across_window_boundary_witness :
  limitNo open_bucket = Z.of_nat 3 /\
  limitNo open_bucket = (requestsMade open_bucket + Z.of_nat 3)%Z /\
  (forall i, (i < 3)%nat -> active open_bucket (burst_clock (0 + i)%nat)) /\
  ~ active open_bucket (burst_clock (0 + 3)%nat) /\
  (forall i, (i < 2)%nat ->
     burst_clock (0 + 3 + 2 + i)%nat - burst_clock (0 + 3 + 1)%nat
     < limitPeriod open_bucket * 1000) /\
  fst (fst (attempts burst_clock (3 + 3) open_bucket 0%nat))
  = Ok (map (fun j => (Ok tt, (requestsMade open_bucket + Z.of_nat j)%Z)) (seq 1 3) ++
        map (fun j => (Ok tt, Z.of_nat j)) (seq 1 3)).
Proof.
  assert (H1 : limitNo open_bucket = Z.of_nat 3) by reflexivity.
  assert (H2 : limitNo open_bucket = (requestsMade open_bucket + Z.of_nat 3)%Z) by reflexivity.
  assert (H3 : forall i, (i < 3)%nat -> active open_bucket (burst_clock (0 + i)%nat)).
  { intros [|[|[|i]]] Hi; [vm_compute; reflexivity .. | lia]. }
  assert (H4 : ~ active open_bucket (burst_clock (0 + 3)%nat))
    by (intros H; vm_compute in H; discriminate).
  assert (H5 : forall i, (i < 2)%nat ->
                 burst_clock (0 + 3 + 2 + i)%nat - burst_clock (0 + 3 + 1)%nat
                 < limitPeriod open_bucket * 1000).
  { intros [|[|i]] Hi; [vm_compute; reflexivity .. | lia]. }
  split; [exact H1|]. split; [exact H2|]. split; [exact H3|]. split; [exact H4|].
  split; [exact H5|].
  exact (burst_across_window_boundary burst_clock open_bucket 0%nat 3%nat 2%nat
           H1 H2 H3 H4 H5).
Defined.

Lemma setCache_replaces_one_entry_witness :
  "d-2"%string <> "d-1"%string /\
  cache (snd (fst (setCache (steady 100000) "d-1" (JS.Num 2)
                     (snd (fst (setCache (steady 100000) "d-1" (JS.Num 1) seven_cached 0%nat)))
                     1%nat))) !! "d-2"
  = cache seven_cached !! "d-2" /\
  cache (snd (fst (setCache (steady 100000) "d-1" (JS.Num 2)
                     (snd (fst (setCache (steady 100000) "d-1" (JS.Num 1) seven_cached 0%nat)))
                     1%nat))) !! "d-1"
  = Some {| item := JS.Num 2; expires := steady 100000 1%nat + cacheTime seven_cached * 1000 |}.
Proof.
  assert (H : "d-2"%string <> "d-1"%string) by discriminate.
  destruct (setCache_replaces_one_entry (steady 100000) "d-1" "d-2" (JS.Num 1) (JS.Num 2)
              seven_cached 0%nat 1%nat) as (_ & Hk & Hother).
  split; [exact H|]. split; [exact (Hother H) | exact Hk].
Defined.

Lemma cache_hit_is_free_witness :
  JS.truthy (item {| item := JS.Num 7; expires := 200000 |}) = true /\
  steady 100000 0%nat < expires {| item := JS.Num 7; expires := 200000 |} /\
  getRoblox (steady 100000) (answers found) "7" both_cached 0%nat
  = (Ok (JS.Num 7), both_cached, 1%nat) /\
  getDiscord (steady 100000) (answers found) "7" both_cached 0%nat
  = (Ok (JS.Num 7), both_cached, 1%nat).
Proof.
  assert (H1 : JS.truthy (item {| item := JS.Num 7; expires := 200000 |}) = true)
    by reflexivity.
  assert (H2 : steady 100000 0%nat < expires {| item := JS.Num 7; expires := 200000 |})
    by (vm_compute; reflexivity).
  destruct (cache_hit_is_free (steady 100000) (answers found) "7" both_cached 0%nat _ H1 H2)
    as [Hforward Hreverse].
  split; [exact H1|]. split; [exact H2|]. split.
  - apply Hforward. vm_compute. reflexivity.
  - apply Hreverse. vm_compute. reflexivity.
Defined.

(** The id 5 is looked up at 100 s and found: 42 is returned and cached
    until 160 s, and the lookup made at 130 s is served from the cache. *)
Lemma found_roblox_id_is_cached_witness :
  misses lookup_clock init ("d-" +:+ "5") 0%nat = true /\
  run lookup_clock (globalRatelimit init) 0%nat
  = (Ok tt, {| limitNo := 60; limitPeriod := 60; since := 100000; requestsMade := 1 |}, 2%nat) /\
  res_ok found = true /\
  JS.truthy (res_json found) = true /\
  JS.prop (res_json found) "robloxId" = Some (JS.Num 42) /\
  JS.truthy (JS.Num 42) = true /\
  lookup_clock 3%nat < lookup_clock 2%nat + cacheTime init * 1000 /\
  fst (fst (getRoblox lookup_clock (answers found) "5" init 0%nat)) = Ok (JS.Num 42) /\
  getRoblox lookup_clock (answers found) "5"
    (snd (fst (getRoblox lookup_clock (answers found) "5" init 0%nat))) 3%nat
  = (Ok (JS.Num 42), snd (fst (getRoblox lookup_clock (answers found) "5" init 0%nat)), 4%nat).
Proof.
  assert (H1 : misses lookup_clock init ("d-" +:+ "5") 0%nat = true) by reflexivity.
  assert (H2 : run lookup_clock (globalRatelimit init)
                 (snd (getCache lookup_clock ("d-" +:+ "5") init 0%nat))
               = (Ok tt, {| limitNo := 60; limitPeriod := 60; since := 100000;
                            requestsMade := 1 |}, 2%nat)) by reflexivity.
  assert (H3 : answers found (length (requests init)) (request_of ("/api/roblox/" +:+ "5") init)
               = Some found) by reflexivity.
  assert (H4 : res_ok found = true) by reflexivity.
  assert (H5 : JS.truthy (res_json found) = true) by reflexivity.
  assert (H6 : JS.prop (res_json found) "robloxId" = Some (JS.Num 42)) by reflexivity.
  assert (H7 : JS.truthy (JS.Num 42) = true) by reflexivity.
  assert (H8 : lookup_clock 3%nat < lookup_clock 2%nat + cacheTime init * 1000)
    by (vm_compute; reflexivity).
  destruct (found_roblox_id_is_cached lookup_clock (answers found) "5" init 0%nat
              _ _ _ _ H1 H2 H3 H4 H5 H6) as [Hfirst Hnext].
  split; [exact H1|]. split; [exact H2|]. split; [exact H4|]. split; [exact H5|].
  split; [exact H6|]. split; [exact H7|]. split; [exact H8|].
  rewrite Hfirst. cbn [fst snd]. split; [reflexivity|].
  exact (Hnext 3%nat H7 H8).
Defined.

Lemma found_discord_id_is_cached_witness :
  misses (steady 100000) init ("r-" +:+ "42") 0%nat = true /\
  run (steady 100000) (reverseRatelimit init) 0%nat
  = (Ok tt, {| limitNo := 30; limitPeriod := 60; since := 100000; requestsMade := 1 |}, 2%nat) /\
  run (steady 100000) (globalRatelimit init) 2%nat
  = (Ok tt, {| limitNo := 60; limitPeriod := 60; since := 100000; requestsMade := 1 |}, 4%nat) /\
  JS.prop (res_json found) "discordId" = Some (JS.Str "99") /\
  JS.truthy (JS.Str "99") = true /\
  steady 100000 5%nat < steady 100000 4%nat + cacheTime init * 1000 /\
  fst (fst (getDiscord (steady 100000) (answers found) "42" init 0%nat)) = Ok (JS.Str "99") /\
  getDiscord (steady 100000) (answers found) "42"
    (snd (fst (getDiscord (steady 100000) (answers found) "42" init 0%nat))) 5%nat
  = (Ok (JS.Str "99"),
     snd (fst (getDiscord (steady 100000) (answers found) "42" init 0%nat)), 6%nat).
Proof.
  assert (H1 : misses (steady 100000) init ("r-" +:+ "42") 0%nat = true) by reflexivity.
  assert (H2 : run (steady 100000) (reverseRatelimit init)
                 (snd (getCache (steady 100000) ("r-" +:+ "42") init 0%nat))
               = (Ok tt, {| limitNo := 30; limitPeriod := 60; since := 100000;
                            requestsMade := 1 |}, 2%nat)) by reflexivity.
  assert (H3 : run (steady 100000) (globalRatelimit init) 2%nat
               = (Ok tt, {| limitNo := 60; limitPeriod := 60; since := 100000;
                            requestsMade := 1 |}, 4%nat)) by reflexivity.
  assert (H4 : answers found (length (requests init))
                 (request_of ("/api/reverse/" +:+ "42") init) = Some found) by reflexivity.
  assert (H5 : res_ok found = true) by reflexivity.
  assert (H6 : JS.truthy (res_json found) = true) by reflexivity.
  assert (H7 : JS.prop (res_json found) "discordId" = Some (JS.Str "99")) by reflexivity.
  assert (H8 : JS.truthy (JS.Str "99") = true) by reflexivity.
  assert (H9 : steady 100000 5%nat < steady 100000 4%nat + cacheTime init * 1000)
    by (vm_compute; reflexivity).
  destruct (found_discord_id_is_cached (steady 100000) (answers found) "42" init 0%nat
              _ _ _ _ _ _ H1 H2 H3 H4 H5 H6 H7) as [Hfirst Hnext].
  split; [exact H1|]. split; [exact H2|]. split; [exact H3|]. split; [exact H7|].
  split; [exact H8|]. split; [exact H9|].
  rewrite Hfirst. cbn [fst snd]. split; [reflexivity|].
  exact (Hnext 5%nat H8 H9).
Defined.

(** A successful answer whose body is [null]. *)
Lemma falsy_body_is_not_found_witness :
  misses (steady 100000) init ("d-" +:+ "5") 0%nat = true /\
  res_ok {| res_status := 200; res_json := JS.Null |} = true /\
  JS.truthy (res_json {| res_status := 200; res_json := JS.Null |}) = false /\
  getRoblox (steady 100000) (answers {| res_status := 200; res_json := JS.Null |}) "5" init 0%nat
  = (Ok JS.Undefined,
     sent ("/api/roblox/" +:+ "5")
       {| limitNo := 60; limitPeriod := 60; since := 100000; requestsMade := 1 |} init,
     2%nat).
Proof.
  assert (H1 : misses (steady 100000) init ("d-" +:+ "5") 0%nat = true) by reflexivity.
  assert (H2 : run (steady 100000) (globalRatelimit init)
                 (snd (getCache (steady 100000) ("d-" +:+ "5") init 0%nat))
               = (Ok tt, {| limitNo := 60; limitPeriod := 60; since := 100000;
                            requestsMade := 1 |}, 2%nat)) by reflexivity.
  assert (H3 : answers {| res_status := 200; res_json := JS.Null |} (length (requests init))
                 (request_of ("/api/roblox/" +:+ "5") init)
               = Some {| res_status := 200; res_json := JS.Null |}) by reflexivity.
  assert (H4 : res_ok {| res_status := 200; res_json := JS.Null |} = true) by reflexivity.
  assert (H5 : JS.truthy (res_json {| res_status := 200; res_json := JS.Null |}) = false)
    by reflexivity.
  split; [exact H1|]. split; [exact H4|]. split; [exact H5|].
  exact (falsy_body_is_not_found (steady 100000)
           (answers {| res_status := 200; res_json := JS.Null |}) "5" init 0%nat
           _ _ _ H1 H2 H3 H4 H5).
Defined.

(** The three errors of a request that was sent: no answer, a status 500
    with an [error] object, a status 500 without one. *)
Lemma request_errors_witness :
  run (steady 100000) (globalRatelimit init) 0%nat
  = (Ok tt, {| limitNo := 60; limitPeriod := 60; since := 100000; requestsMade := 1 |}, 2%nat) /\
  fst (fst (makeRequest (steady 100000) (fun _ _ => None) "/api/roblox/1" init 0%nat))
  = Throw Rejected /\
  fst (fst (makeRequest (steady 100000)
              (answers (remote_error 500 [("message", JS.Str "boom")]))
              "/api/roblox/1" init 0%nat))
  = Throw (HttpError {| message := Given (JS.Str "boom"); status := JS.Num 500 |}) /\
  fst (fst (makeRequest (steady 100000)
              (answers {| res_status := 500; res_json := JS.Obj [] |})
              "/api/roblox/1" init 0%nat))
  = Throw (PlainError {| res_status := 500; res_json := JS.Obj [] |}).
Proof.
  assert (H1 : run (steady 100000) (globalRatelimit init) 0%nat
               = (Ok tt, {| limitNo := 60; limitPeriod := 60; since := 100000;
                            requestsMade := 1 |}, 2%nat)) by reflexivity.
  split; [exact H1|]. split; [|split].
  - rewrite (proj1 (request_errors (steady 100000) (fun _ _ => None) "/api/roblox/1"
                      init 0%nat _ _ H1) eq_refl).
    reflexivity.
  - destruct (proj2 (proj2 (request_errors (steady 100000)
                              (answers (remote_error 500 [("message", JS.Str "boom")]))
                              "/api/roblox/1" init 0%nat _ _ H1)
                      (remote_error 500 [("message", JS.Str "boom")])
                      (JS.Obj [("status", JS.Num 500); ("message", JS.Str "boom")])
                      eq_refl eq_refl ltac:(discriminate) ltac:(discriminate) eq_refl)
                eq_refl) as (m & st & Hm & Hst & ->).
    injection Hm as <-. injection Hst as <-. reflexivity.
  - rewrite (proj1 (proj2 (request_errors (steady 100000)
                             (answers {| res_status := 500; res_json := JS.Obj [] |})
                             "/api/roblox/1" init 0%nat _ _ H1)
                     {| res_status := 500; res_json := JS.Obj [] |} JS.Undefined
                     eq_refl eq_refl ltac:(discriminate) ltac:(discriminate) eq_refl)
               eq_refl).
    reflexivity.
Defined.

(** With the global bucket full, both lookups throw and leave the cache as
    it was. *)
Lemma failed_lookup_leaves_cache_witness :
  fst (fst (getRoblox (steady 100000) (answers found) "1" busy 0%nat))
  = Throw (RateLimitExceeded (full_bucket 100000) 100000) /\
  cache (snd (fst (getRoblox (steady 100000) (answers found) "1" busy 0%nat))) = cache busy /\
  fst (fst (getDiscord (steady 100000) (answers found) "1" busy 0%nat))
  = Throw (RateLimitExceeded (full_bucket 100000) 100000) /\
  cache (snd (fst (getDiscord (steady 100000) (answers found) "1" busy 0%nat))) = cache busy.
Proof.
  destruct (failed_lookup_leaves_cache (steady 100000) (answers found) "1" busy 0%nat)
    as [Hforward Hreverse].
  split; [reflexivity|]. split; [|split; [reflexivity|]].
  - exact (Hforward _ _ _ eq_refl).
  - exact (Hreverse _ _ _ eq_refl).
Defined.

(** A reverse lookup made at 100 s is answered 429 with the hint
    [retryAfter: 5]: the reverse bucket has counted one call, and the
    forward lookup that follows is rejected locally. *)
Lemma reverse_429_closes_global_bucket_witness :
  misses cooldown_clock init ("r-" +:+ "9") 0%nat = true /\
  run cooldown_clock (reverseRatelimit init) 0%nat
  = (Ok tt, {| limitNo := 30; limitPeriod := 60; since := 100000; requestsMade := 1 |}, 2%nat) /\
  run cooldown_clock (globalRatelimit init) 2%nat
  = (Ok tt, {| limitNo := 60; limitPeriod := 60; since := 100000; requestsMade := 1 |}, 4%nat) /\
  res_status (remote_error 429 [("retryAfter", JS.Num 5)]) = 429%Z /\
  JS.ToNumber (JS.or (JS.Num 5) (JS.Num 3000)) = Some 5 /\
  fst (fst (getDiscord cooldown_clock (answers (remote_error 429 [("retryAfter", JS.Num 5)]))
              "9" init 0%nat))
  = Throw (RatelimitError {| message := FromStatus (JS.Num 429); status := JS.Num 429 |}
             (JS.Num 5) (JS.Bool false)) /\
  requestsMade (reverseRatelimit
                  (snd (fst (getDiscord cooldown_clock
                               (answers (remote_error 429 [("retryAfter", JS.Num 5)]))
                               "9" init 0%nat)))) = 1%Z /\
  exists e c2 n3,
    getRoblox cooldown_clock (answers (remote_error 429 [("retryAfter", JS.Num 5)])) "123"
      (snd (fst (getDiscord cooldown_clock
                   (answers (remote_error 429 [("retryAfter", JS.Num 5)])) "9" init 0%nat)))
      5%nat
    = (Throw e, c2, n3) /\
    is_local_ratelimit e = true /\
    length (requests c2) = 1%nat.
Proof.
  set (service := answers (remote_error 429 [("retryAfter", JS.Num 5)])).
  set (error := JS.Obj [("status", JS.Num 429); ("retryAfter", JS.Num 5)]).
  set (rb := {| limitNo := 30; limitPeriod := 60; since := 100000; requestsMade := 1 |}).
  set (gb := {| limitNo := 60; limitPeriod := 60; since := 100000; requestsMade := 1 |}).
  assert (H1 : misses cooldown_clock init ("r-" +:+ "9") 0%nat = true) by reflexivity.
  assert (H2 : run cooldown_clock (reverseRatelimit init)
                 (snd (getCache cooldown_clock ("r-" +:+ "9") init 0%nat))
               = (Ok tt, rb, 2%nat)) by reflexivity.
  assert (H3 : run cooldown_clock (globalRatelimit init) 2%nat = (Ok tt, gb, 4%nat))
    by reflexivity.
  assert (H4 : service (length (requests init)) (request_of ("/api/reverse/" +:+ "9") init)
               = Some (remote_error 429 [("retryAfter", JS.Num 5)])) by reflexivity.
  assert (H5 : res_status (remote_error 429 [("retryAfter", JS.Num 5)]) = 429%Z)
    by reflexivity.
  assert (H6 : JS.prop (res_json (remote_error 429 [("retryAfter", JS.Num 5)])) "error"
               = Some error) by reflexivity.
  assert (H7 : JS.prop error "retryAfter" = Some (JS.Num 5)) by reflexivity.
  assert (H8 : JS.ToNumber (JS.or (JS.Num 5) (JS.Num 3000)) = Some 5) by reflexivity.
  destruct (reverse_429_closes_global_bucket cooldown_clock service "9" init 0%nat
              rb gb 2%nat 4%nat _ error (JS.Num 5) 5 H1 H2 H3 H4 H5 H6 H7 H8)
    as (Hthrow & Hrev & Hnext).
  split; [exact H1|]. split; [exact H2|]. split; [exact H3|]. split; [exact H5|].
  split; [exact H8|]. rewrite Hthrow. cbn [fst snd].
  split; [reflexivity|]. split; [reflexivity|].
  destruct (Hnext "123" 5%nat) as (e & c2 & n3 & Hcall & Hloc & Hreq).
  - intros i _. reflexivity.
  - intros i Hi. do 5 (destruct i as [|i]; [lia|]).
    do 5 (destruct i as [|i]; [vm_compute; reflexivity|]). lia.
  - exists e, c2, n3. split; [exact Hcall|]. split; [exact Hloc|]. rewrite Hreq. reflexivity.
Defined.


(** Options that are all falsy change nothing of a configured module. *)
Lemma setOptions_never_resets_witness :
  useLog configured = true /\
  is_Some (token configured) /\
  ~ cacheTime configured == 0 /\
  useLog (setOptions {| opt_useLog := Some false; opt_token := Some ""%string;
                        opt_cacheTime := Some 0 |} configured) = true /\
  is_Some (token (setOptions {| opt_useLog := Some false; opt_token := Some ""%string;
                                opt_cacheTime := Some 0 |} configured)) /\
  ~ cacheTime (setOptions {| opt_useLog := Some false; opt_token := Some ""%string;
                             opt_cacheTime := Some 0 |} configured) == 0.
Proof.
  assert (H1 : useLog configured = true) by reflexivity.
  assert (H2 : is_Some (token configured)) by (eexists; reflexivity).
  assert (H3 : ~ cacheTime configured == 0) by (intros H; vm_compute in H; discriminate).
  destruct (setOptions_never_resets
              {| opt_useLog := Some false; opt_token := Some ""%string; opt_cacheTime := Some 0 |}
              configured) as (Hlog & Htoken & Httl & _).
  split; [exact H1|]. split; [exact H2|]. split; [exact H3|].
  split; [exact (Hlog H1)|]. split; [exact (Htoken H2) | exact (Httl H3)].
Defined.

Lemma init_well_formed : well_formed init.
Proof.
  unfold well_formed, same_policy, within_limit. cbn.
  repeat split; try lia; discriminate.
Qed.

(** The module is well formed after a run that fills the global bucket,
    reconfigures the module and is answered 429. *)
Lemma calls_keep_module_well_formed_witness :
  well_formed init /\
  well_formed
    (snd (fst (calls (steady 100000) (answers (remote_error 429 []))
                 [CallGetRoblox "1";
                  CallSetOptions {| opt_useLog := Some true; opt_token := Some ""%string;
                                    opt_cacheTime := Some 0 |};
                  CallGetDiscord "2"]
                 init 0%nat))).
Proof.
  split; [exact init_well_formed|].
  exact (calls_keep_module_well_formed (steady 100000) (answers (remote_error 429 []))
           _ init 0%nat init_well_formed).
Defined.

